(** * nanobot: the agent loop (nanobot/agent/loop.py) and the long-term
    memory store (nanobot/agent/memory.py)

    A shallow embedding of [AgentLoop._process_message],
    [AgentLoop._process_system_message] and [MemoryStore.append_long_term],
    and the properties of the turn processor, of origin resolution and of the
    memory-confirmation state machine. *)

From Stdlib Require Import ZArith Ascii.
From stdpp Require Import gmap strings list fin_maps.

Local Open Scope Z_scope.

(** ** Python [str] operations

    A Python [str] is represented by its UTF-8 encoding, a [string] of bytes.
    Concatenation, equality and splitting at an ASCII character commute with
    the encoding, so they are the byte-level operations. *)
Module PyStr.

Definition code (c : ascii) : N := N_of_ascii c.

Definition in_range (lo hi : N) (c : ascii) : bool :=
  ((lo <=? code c) && (code c <=? hi))%N.

Definition is_code (n : N) (c : ascii) : bool := (code c =? n)%N.

(** The line feed, written [\n] in the source. *)
Definition nl : string := String (ascii_of_N 10) "".

(** The code points for which [str.isspace] holds and that [str.strip]
    removes: U+0009..U+000D, U+001C..U+0020, U+0085, U+00A0, U+1680,
    U+2000..U+200A, U+2028, U+2029, U+202F, U+205F, U+3000; by the length of
    their UTF-8 encoding. *)
Definition ws1 (c : ascii) : bool :=
  in_range 9 13 c || in_range 28 32 c.

Definition ws2 (c1 c2 : ascii) : bool :=
  is_code 194 c1 && (is_code 133 c2 || is_code 160 c2).

Definition ws3 (c1 c2 c3 : ascii) : bool :=
  (is_code 225 c1 && is_code 154 c2 && is_code 128 c3)
  || (is_code 226 c1 && is_code 128 c2
      && (in_range 128 138 c3 || is_code 168 c3 || is_code 169 c3
          || is_code 175 c3))
  || (is_code 226 c1 && is_code 129 c2 && is_code 159 c3)
  || (is_code 227 c1 && is_code 128 c2 && is_code 128 c3).

(** [str.lstrip()] *)
Fixpoint lstrip (s : string) : string :=
  match s with
  | EmptyString => EmptyString
  | String c1 t1 =>
      if ws1 c1 then lstrip t1
      else match t1 with
           | String c2 t2 =>
               if ws2 c1 c2 then lstrip t2
               else match t2 with
                    | String c3 t3 => if ws3 c1 c2 c3 then lstrip t3 else s
                    | EmptyString => s
                    end
           | EmptyString => s
           end
  end.

(** A string of white space only (or empty). *)
Definition blank (s : string) : bool := bool_decide (lstrip s = "").

(** The string begins with a white-space code point. *)
Definition starts_ws (s : string) : bool :=
  match s with
  | String c1 t1 =>
      ws1 c1
      || match t1 with
         | String c2 t2 =>
             ws2 c1 c2
             || match t2 with
                | String c3 _ => ws3 c1 c2 c3
                | EmptyString => false
                end
         | EmptyString => false
         end
  | EmptyString => false
  end.

(** [str.rstrip()]: the longest suffix of white space is cut off. A suffix
    that starts inside a multi-byte character is never blank, because no
    white-space encoding starts with a continuation byte. *)
Fixpoint rstrip (s : string) : string :=
  match s with
  | EmptyString => EmptyString
  | String c t => if blank s then EmptyString else String c (rstrip t)
  end.

(** [str.strip()] *)
Definition strip (s : string) : string := rstrip (lstrip s).

Definition shift (c : ascii) (d : Z) : ascii :=
  ascii_of_N (Z.to_N (Z.of_N (code c) + d)).

(** [str.lower()] on the Latin letters A..Z and the Cyrillic capitals
    U+0400..U+042F (bytes D0 80 .. D0 AF); other code points are kept. The
    three trigger sets of the turn processor are written in lower-case Latin
    and Cyrillic letters without k and i, whose only upper-case forms are
    the ones mapped here, so membership of [lower s] in them is decided as
    Python decides it. *)
Fixpoint lower (s : string) : string :=
  match s with
  | EmptyString => EmptyString
  | String c1 t1 =>
      if in_range 65 90 c1 then String (shift c1 32) (lower t1)
      else match t1 with
           | String c2 t2 =>
               if is_code 208 c1 && in_range 144 159 c2
               then String c1 (String (shift c2 32) (lower t2))
               else if is_code 208 c1 && in_range 160 175 c2
               then String (shift c1 1) (String (shift c2 (-32)) (lower t2))
               else if is_code 208 c1 && in_range 128 143 c2
               then String (shift c1 1) (String (shift c2 16) (lower t2))
               else String c1 (lower t1)
           | EmptyString => String c1 EmptyString
           end
  end.

(** [sep in s] for a one-character [sep]. *)
Fixpoint contains (sep : ascii) (s : string) : bool :=
  match s with
  | EmptyString => false
  | String c t => if bool_decide (c = sep) then true else contains sep t
  end.

(** [s.split(sep, 1)] for a one-character [sep]: at most one split, at the
    first occurrence. *)
Fixpoint split1 (sep : ascii) (s : string) : list string :=
  match s with
  | EmptyString => [EmptyString]
  | String c t =>
      if bool_decide (c = sep) then [EmptyString; t]
      else match split1 sep t with
           | h :: r => String c h :: r
           | [] => [String c EmptyString]
           end
  end.

(** [sep.join(parts)] *)
Fixpoint join (sep : string) (parts : list string) : string :=
  match parts with
  | [] => ""
  | [p] => p
  | p :: rest => p +:+ sep +:+ join sep rest
  end.

(** Membership in a set literal of strings. *)
Definition str_in (s : string) (l : list string) : bool :=
  bool_decide (s ∈ l).

End PyStr.

(** ** Data model *)

(** A value stored in [Session.metadata]: the turn processor stores [True]
    and strings there and reads entries back through [bool(...)] and
    [str(... or "")]. *)
Inductive PyVal :=
| PyNone
| PyBool (b : bool)
| PyStr (s : string).

(** [bool(v)] *)
Definition truthy (v : PyVal) : bool :=
  match v with
  | PyNone => false
  | PyBool b => b
  | PyStr s => negb (bool_decide (s = ""))
  end.

(** [bool(d.get(k))]: a missing key reads as [None]. *)
Definition get_truthy (d : gmap string PyVal) (k : string) : bool :=
  match d !! k with
  | Some v => truthy v
  | None => false
  end.

(** [str(v)] *)
Definition py_str (v : PyVal) : string :=
  match v with
  | PyNone => "None"
  | PyBool true => "True"
  | PyBool false => "False"
  | PyStr s => s
  end.

(** [str(d.get(k) or "")] *)
Definition get_str_or_empty (d : gmap string PyVal) (k : string) : string :=
  match d !! k with
  | Some v => if truthy v then py_str v else ""
  | None => ""
  end.

(** The messages of nanobot/bus/events.py, with the fields that the turn
    processor reads and writes. *)
Record InboundMessage := mkInbound {
  channel : string;
  sender_id : string;
  chat_id : string;
  content : string;
  media : list string
}.

Record OutboundMessage := mkOutbound {
  out_channel : string;
  out_chat_id : string;
  out_content : string
}.

(** Modelled from the spec: [InboundMessage.session_key] is missing from the
    sources; the session key is derived deterministically from channel and
    chat_id, and the test reads the session of channel [telegram], chat [1]
    under the key [telegram:1]. *)
Definition session_key (msg : InboundMessage) : string :=
  channel msg +:+ ":" +:+ chat_id msg.

(** One entry of the session history. *)
Record Message := mkMessage {
  role : string;
  msg_content : string
}.

(** [Session.key] is the key under which the session manager holds the
    session; the model keeps it next to the session, as the key of the
    store, instead of inside. *)
Record Session := mkSession {
  messages : list Message;
  metadata : gmap string PyVal
}.

(** Modelled from the spec: [Session.add_message] (nanobot/session/manager.py)
    is missing from the sources; history is an ordered sequence of
    {role, content} turns and its mutation is append-only. *)
Definition add_message (s : Session) (r c : string) : Session :=
  {| messages := messages s ++ [mkMessage r c];
     metadata := metadata s |}.

(** [session.metadata[k] = v] *)
Definition set_meta (s : Session) (k : string) (v : PyVal) : Session :=
  {| messages := messages s; metadata := <[k := v]> (metadata s) |}.

(** [session.metadata.pop(k, None)] *)
Definition pop_meta (s : Session) (k : string) : Session :=
  {| messages := messages s; metadata := delete k (metadata s) |}.

(** Modelled from the spec: the [Session] constructor is missing from the
    sources; a session is created on first reference to its key, with an
    empty history and no metadata. *)
Definition new_session : Session :=
  {| messages := []; metadata := ∅ |}.

(** Outcome of a call that may raise. *)
Inductive result (A : Type) :=
| Ok (a : A)
| Raise (e : string).
Arguments Ok {A} a.
Arguments Raise {A} e.

(** ** External collaborators

    The model backend, the tool registry and the context builder are used
    through their interfaces only. [World] is the state they may read and
    change (the backend's conversation state, files, the network, the bus);
    the session store and MEMORY.md are kept apart from it. *)
Record ToolCall (Args : Type) := mkToolCall {
  tc_id : string;
  tc_name : string;
  tc_arguments : Args
}.
Arguments mkToolCall {Args}.
Arguments tc_id {Args}.
Arguments tc_name {Args}.
Arguments tc_arguments {Args}.

(** Modelled from the spec: [LLMResponse] (nanobot/providers/base.py) is
    missing from the sources; a response is a content, possibly absent, and
    a list of tool calls, and [has_tool_calls] says that the list is not
    empty. *)
Record LLMResponse (Args : Type) := mkResponse {
  resp_content : option string;
  tool_calls : list (ToolCall Args)
}.
Arguments mkResponse {Args}.
Arguments resp_content {Args}.
Arguments tool_calls {Args}.

Definition has_tool_calls {Args} (r : LLMResponse Args) : bool :=
  match tool_calls r with
  | [] => false
  | _ :: _ => true
  end.

(** An entry of [tool_call_dicts]. *)
Record ToolCallDict := mkToolCallDict {
  tcd_id : string;
  tcd_type : string;
  tcd_function_name : string;
  tcd_function_arguments : string
}.

Class Collaborators := {
  World : Type;
  (** a message of the list given to the backend *)
  ChatMsg : Type;
  ToolDef : Type;
  (** structured arguments of a tool call *)
  Args : Type;
  (** the dict literal with the keys role and content *)
  role_content : string -> string -> ChatMsg;
  (** json.dumps(arguments), for the arguments that serialise: [Args]
      stands for these *)
  json_dumps : Args -> string;
  (** LLMProvider.chat(messages, tools, model); it may raise *)
  provider_chat :
    World -> list ChatMsg -> option (list ToolDef) -> string ->
    World * result (LLMResponse Args);
  (** ToolRegistry.get_definitions() *)
  get_definitions : World -> list ToolDef;
  (** ToolRegistry.execute(name, arguments): failures come back as text *)
  tools_execute : World -> string -> Args -> World * string;
  (** set_context(channel, chat_id) on the message tool and on the spawn
      tool, when they are registered *)
  set_tool_contexts : World -> string -> string -> World;
  (** Session.get_history() *)
  get_history : Session -> list Message;
  (** ContextBuilder.build_messages(history, current_message, media) *)
  build_messages :
    list Message -> string -> option (list string) -> list ChatMsg;
  (** ContextBuilder.add_assistant_message(messages, content, tool_calls) *)
  add_assistant_message :
    list ChatMsg -> option string -> list ToolCallDict -> list ChatMsg;
  (** ContextBuilder.add_tool_result(messages, id, name, result) *)
  add_tool_result :
    list ChatMsg -> string -> string -> string -> list ChatMsg
}.

(** The fields of [AgentLoop] that the turn processor reads. *)
Record AgentConfig := mkConfig {
  model : string;
  max_iterations : Z
}.

(** ** MemoryStore *)
Module MemoryStore.

Import PyStr.

(** The text written by [ensure_long_term_exists] when MEMORY.md is
    missing. *)
Definition template : string :=
  "# Long-term Memory" +:+ nl +:+ nl +:+
  "This file stores important information that should persist across sessions."
  +:+ nl +:+ nl +:+
  "## User Information" +:+ nl +:+ nl +:+
  "(Important facts about the user)" +:+ nl +:+ nl +:+
  "## Preferences" +:+ nl +:+ nl +:+
  "(User preferences learned over time)" +:+ nl +:+ nl +:+
  "## Project Context" +:+ nl +:+ nl +:+
  "(Information about ongoing projects)" +:+ nl +:+ nl +:+
  "## Important Notes" +:+ nl +:+ nl +:+
  "(Things to remember)" +:+ nl +:+ nl +:+
  "---" +:+ nl +:+ nl +:+
  "*This file is automatically updated by nanobot when important information"
  +:+ nl +:+
  "should be remembered.*" +:+ nl.

(** The content of memory/MEMORY.md, [None] while the file does not
    exist. *)
Definition ensure_long_term_exists (f : option string) : option string :=
  match f with
  | Some _ => f
  | None => Some template
  end.

Definition append_long_term (f : option string) (content : string)
  : option string :=
  let entry := strip content in
  if bool_decide (entry = "") then f
  else
    match ensure_long_term_exists f with
    | Some text =>
        Some (text +:+ (nl +:+ nl +:+ "---" +:+ nl +:+ nl) +:+ entry +:+ nl)
    | None => None
    end.

End MemoryStore.

(** ** The turn processor *)
Section AgentLoop.

Context {C : Collaborators}.
Variable cfg : AgentConfig.

Import PyStr.

(** One invocation of the model backend, as the turn processor made it. *)
Record ChatCall := mkChatCall {
  call_messages : list ChatMsg;
  call_tools : option (list ToolDef);
  call_model : string;
  call_result : result (LLMResponse Args)
}.

(** What a turn reads and changes: the session store, the content of
    memory/MEMORY.md ([None] while the file is missing), the collaborators'
    world, and the record of the calls made to the model backend. *)
Record State := mkState {
  sessions : gmap string Session;
  memory_file : option string;
  world : World;
  chat_log : list ChatCall
}.

(** A computation on the state that returns or raises. *)
Definition M (A : Type) : Type := State -> State * result A.

Definition ret {A} (a : A) : M A := fun st => (st, Ok a).

Definition bind {A B} (m : M A) (k : A -> M B) : M B :=
  fun st =>
    match m st with
    | (st', Ok a) => k a st'
    | (st', Raise e) => (st', Raise e)
    end.

Notation "x <- m ; k" := (bind m (fun x => k))
  (at level 20, m at level 100, k at level 200, only parsing).

(** Modelled from the spec: [SessionManager.get_or_create]
    (nanobot/session/manager.py) is missing from the sources; the session
    under the key is handed out, and created first, with [new_session], when
    the key is referenced for the first time. *)
Definition get_or_create (k : string) : M Session :=
  fun st =>
    match sessions st !! k with
    | Some s => (st, Ok s)
    | None =>
        ({| sessions := <[k := new_session]> (sessions st);
            memory_file := memory_file st;
            world := world st;
            chat_log := chat_log st |}, Ok new_session)
    end.

(** Modelled from the spec: [SessionManager.save] is missing from the
    sources; the store keeps the session under its key, here [k]. The
    session object is changed in place before [self.sessions.save(session)];
    nothing between the first change and the save can raise or look at the
    store, so the store is updated at the save. *)
Definition save (k : string) (s : Session) : M unit :=
  fun st =>
    ({| sessions := <[k := s]> (sessions st);
        memory_file := memory_file st;
        world := world st;
        chat_log := chat_log st |}, Ok tt).

(** [await self.provider.chat(messages=..., tools=..., model=self.model)] *)
Definition chat (msgs : list ChatMsg) (tools : option (list ToolDef))
  : M (LLMResponse Args) :=
  fun st =>
    let '(w, r) := provider_chat (world st) msgs tools (model cfg) in
    ({| sessions := sessions st;
        memory_file := memory_file st;
        world := w;
        chat_log := chat_log st ++ [mkChatCall msgs tools (model cfg) r] |},
     r).

(** [self.tools.get_definitions()] *)
Definition definitions : M (list ToolDef) :=
  fun st => (st, Ok (get_definitions (world st))).

(** [await self.tools.execute(name, arguments)]: a tool acts on the
    collaborators' world; [memory_file] follows the writes that the turn
    processor makes itself. *)
Definition execute (name : string) (args : Args) : M string :=
  fun st =>
    let '(w, r) := tools_execute (world st) name args in
    ({| sessions := sessions st;
        memory_file := memory_file st;
        world := w;
        chat_log := chat_log st |}, Ok r).

(** The two [set_context] calls on the message tool and the spawn tool. *)
Definition update_tool_contexts (ch cid : string) : M unit :=
  fun st =>
    ({| sessions := sessions st;
        memory_file := memory_file st;
        world := set_tool_contexts (world st) ch cid;
        chat_log := chat_log st |}, Ok tt).

(** [MemoryStore(self.workspace).append_long_term(draft)] *)
Definition append_long_term (draft : string) : M unit :=
  fun st =>
    ({| sessions := sessions st;
        memory_file := MemoryStore.append_long_term (memory_file st) draft;
        world := world st;
        chat_log := chat_log st |}, Ok tt).

(** The [for tool_call in response.tool_calls] loop: the calls are executed
    one after the other, each result is added to the message list. *)
Fixpoint run_tools (calls : list (ToolCall Args)) (msgs : list ChatMsg)
  : M (list ChatMsg) :=
  match calls with
  | [] => ret msgs
  | tool_call :: rest =>
      result <- execute (tc_name tool_call) (tc_arguments tool_call) ;
      run_tools rest
        (add_tool_result msgs (tc_id tool_call) (tc_name tool_call) result)
  end.

Definition tool_call_dict (tc : ToolCall Args) : ToolCallDict :=
  {| tcd_id := tc_id tc;
     tcd_type := "function";
     tcd_function_name := tc_name tc;
     tcd_function_arguments := json_dumps (tc_arguments tc) |}.

(** The [while iteration < self.max_iterations] loop, which
    [_process_message] and [_process_system_message] both contain;
    [remaining] is [max_iterations - iteration]. The result is
    [final_content]. *)
Fixpoint agent_loop (remaining : nat) (msgs : list ChatMsg)
  : M (option string) :=
  match remaining with
  | O => ret None
  | S remaining' =>
      tools <- definitions ;
      response <- chat msgs (Some tools) ;
      if has_tool_calls response then
        let tool_call_dicts := map tool_call_dict (tool_calls response) in
        let msgs :=
          add_assistant_message msgs (resp_content response)
            tool_call_dicts in
        msgs <- run_tools (tool_calls response) msgs ;
        agent_loop remaining' msgs
      else
        ret (resp_content response)
  end.

Definition fallback_content : string :=
  "I've completed processing but have no response to give.".

Definition system_fallback_content : string :=
  "Background task completed.".

(** [x if x is not None else d]; with the empty string for [d] it is also
    [x or ""]. *)
Definition or_default (x : option string) (d : string) : string :=
  match x with
  | Some c => c
  | None => d
  end.

(** Origin of a system message: [chat_id] holds [channel:chat_id]. An index
    outside [parts] raises. *)
Definition resolve_origin (chat_id : string) : result (string * string) :=
  if contains ":" chat_id then
    let parts := split1 ":" chat_id in
    match parts !! 0%nat, parts !! 1%nat with
    | Some origin_channel, Some origin_chat_id =>
        Ok (origin_channel, origin_chat_id)
    | _, _ => Raise "IndexError"
    end
  else Ok ("cli", chat_id).

Definition lift {A} (r : result A) : M A := fun st => (st, r).

(** [AgentLoop._process_system_message] *)
Definition _process_system_message (msg : InboundMessage)
  : M (option OutboundMessage) :=
  origin <- lift (resolve_origin (chat_id msg)) ;
  let origin_channel := origin.1 in
  let origin_chat_id := origin.2 in
  let session_key := origin_channel +:+ ":" +:+ origin_chat_id in
  session <- get_or_create session_key ;
  _ <- update_tool_contexts origin_channel origin_chat_id ;
  let msgs := build_messages (get_history session) (content msg) None in
  final_content <- agent_loop (Z.to_nat (max_iterations cfg)) msgs ;
  let final_content := or_default final_content system_fallback_content in
  let session :=
    add_message session "user"
      ("[System: " +:+ sender_id msg +:+ "] " +:+ content msg) in
  let session := add_message session "assistant" final_content in
  _ <- save session_key session ;
  ret (Some (mkOutbound origin_channel origin_chat_id final_content)).

(** One line of the transcript, [None] for an entry that is skipped. *)
Definition transcript_line (m : Message) : option string :=
  let content := strip (msg_content m) in
  if bool_decide (content = "") then None
  else if bool_decide (role m = "user")
  then Some ("Пользователь: " +:+ content)
  else if bool_decide (role m = "assistant")
  then Some ("Ассистент: " +:+ content)
  else Some (role m +:+ ": " +:+ content).

Definition transcript_lines (l : list Message) : list string :=
  omap transcript_line l.

Definition memory_prompt (transcript : string) : string :=
  "Сформируй краткое структурированное резюме всего диалога для "
  +:+ "долгосрочной памяти. Требования:" +:+ nl
  +:+ "- Пиши по-русски" +:+ nl
  +:+ "- Только то, что действительно важно помнить" +:+ nl
  +:+ "- Структура Markdown: Заголовок, затем блоки: 'Факты', "
  +:+ "'Предпочтения', 'Контекст проекта', "
  +:+ "'Решения/договорённости', "
  +:+ "'Следующие шаги'" +:+ nl
  +:+ "- Если раздел пустой — пропусти его" +:+ nl +:+ nl
  +:+ "Диалог:" +:+ nl
  +:+ transcript.

Definition cancel_reply : string :=
  "Ок, отменил сохранение. Черновик сброшен.".

Definition no_draft_reply : string :=
  "Черновик не найден. Нажми «Сохранить в памяти» "
  +:+ "ещё раз, чтобы сформировать новый черновик.".

Definition saved_reply : string :=
  "Сохранено в долгосрочную память (memory/MEMORY.md).".

Definition edited_reply (edited : string) : string :=
  "Обновил черновик." +:+ nl +:+ nl
  +:+ edited +:+ nl +:+ nl
  +:+ "Теперь напиши «сохранить», нажми" +:+ nl
  +:+ "«Сохранить в памяти» ещё раз, или нажми «Отмена».".

Definition nothing_to_save_reply : string :=
  "Пока нечего сохранять: история диалога пуста.".

Definition draft_reply (draft : string) : string :=
  "Черновик резюме для памяти:" +:+ nl +:+ nl
  +:+ draft +:+ nl +:+ nl
  +:+ "Отправь правки текстом, или напиши «сохранить», "
  +:+ "или нажми «Сохранить в памяти» ещё раз. "
  +:+ "Чтобы отменить — нажми «Отмена».".

Definition draft_placeholder : string :=
  "(Не удалось сгенерировать черновик резюме.)".

Definition is_save_memory (msg : InboundMessage) : bool :=
  str_in (lower (strip (content msg)))
    ["сохранить в памяти"; "save to memory"].

Definition is_cancel_memory (msg : InboundMessage) : bool :=
  str_in (lower (strip (content msg))) ["отмена"; "cancel"].

Definition is_confirm_save (msg : InboundMessage) : bool :=
  str_in (lower (strip (content msg))) ["сохранить"; "save"].

Definition awaiting (session : Session) : bool :=
  get_truthy (metadata session) "awaiting_memory_confirm".

Definition reply (msg : InboundMessage) (text : string)
  : M (option OutboundMessage) :=
  ret (Some (mkOutbound (channel msg) (chat_id msg) text)).

(** The part of [_process_message] after the memory state machine: tool
    contexts, context assembly, the agent loop and the session commit. *)
Definition normal_turn (msg : InboundMessage) (session : Session)
  : M (option OutboundMessage) :=
  _ <- update_tool_contexts (channel msg) (chat_id msg) ;
  let msgs :=
    build_messages (get_history session) (content msg)
      (match media msg with [] => None | _ :: _ => Some (media msg) end) in
  final_content <- agent_loop (Z.to_nat (max_iterations cfg)) msgs ;
  let final_content := or_default final_content fallback_content in
  let session := add_message session "user" (content msg) in
  let session := add_message session "assistant" final_content in
  _ <- save (session_key msg) session ;
  reply msg final_content.

(** The branch [if is_save_memory and not awaiting]. *)
Definition draft_turn (msg : InboundMessage) (session : Session)
  : M (option OutboundMessage) :=
  let transcript := join nl (transcript_lines (messages session)) in
  if bool_decide (strip transcript = "") then
    reply msg nothing_to_save_reply
  else
    draft_resp <-
      chat
        [role_content "system"
           "Ты — ассистент, который готовит заметки в память.";
         role_content "user" (memory_prompt transcript)]
        None ;
    let draft := strip (or_default (resp_content draft_resp) "") in
    let draft :=
      if bool_decide (draft = "") then draft_placeholder else draft in
    let session := set_meta session "awaiting_memory_confirm" (PyBool true) in
    let session := set_meta session "memory_draft" (PyStr draft) in
    _ <- save (session_key msg) session ;
    reply msg (draft_reply draft).

(** [AgentLoop._process_message]. The three [if awaiting ...] statements
    return, except the third one on an input that is empty after trimming;
    control then goes on with [if is_save_memory and not awaiting] and the
    normal processing. *)
Definition _process_message (msg : InboundMessage)
  : M (option OutboundMessage) :=
  if bool_decide (channel msg = "system") then _process_system_message msg
  else
    session <- get_or_create (session_key msg) ;
    (* what follows the three [if awaiting ...] statements *)
    let after_state_machine :=
      if is_save_memory msg && negb (awaiting session)
      then draft_turn msg session
      else normal_turn msg session in
    if awaiting session && is_cancel_memory msg then
      let session := pop_meta session "awaiting_memory_confirm" in
      let session := pop_meta session "memory_draft" in
      _ <- save (session_key msg) session ;
      reply msg cancel_reply
    else if awaiting session && (is_confirm_save msg || is_save_memory msg)
    then
      let draft := strip (get_str_or_empty (metadata session) "memory_draft") in
      if bool_decide (draft = "") then
        let session := pop_meta session "awaiting_memory_confirm" in
        _ <- save (session_key msg) session ;
        reply msg no_draft_reply
      else
        _ <- append_long_term draft ;
        let session := pop_meta session "awaiting_memory_confirm" in
        let session := pop_meta session "memory_draft" in
        _ <- save (session_key msg) session ;
        reply msg saved_reply
    else if awaiting session
              && negb (is_confirm_save msg || is_save_memory msg
                       || is_cancel_memory msg)
    then
      let edited := strip (content msg) in
      if negb (bool_decide (edited = "")) then
        let session := set_meta session "memory_draft" (PyStr edited) in
        _ <- save (session_key msg) session ;
        reply msg (edited_reply edited)
      else after_state_machine
    else after_state_machine.

End AgentLoop.

(** ** Vocabulary of the properties *)
Section Vocabulary.

Context {C : Collaborators}.
Variable cfg : AgentConfig.

Import PyStr.

(** The session that [get_or_create] hands out for a key. *)
Definition current_session (st : State) (k : string) : Session :=
  default new_session (sessions st !! k).

(** The state after [get_or_create]: the session is in the store. *)
Definition touch (k : string) (st : State) : State :=
  {| sessions := <[k := current_session st k]> (sessions st);
     memory_file := memory_file st;
     world := world st;
     chat_log := chat_log st |}.

(** The message is answered by the memory state machine, by one of the
    [return] statements before the tool contexts are updated. *)
Definition short_circuits (msg : InboundMessage) (s : Session) : bool :=
  if awaiting s
  then is_cancel_memory msg || is_confirm_save msg || is_save_memory msg
       || negb (bool_decide (strip (content msg) = ""))
  else is_save_memory msg.

(** The message is a confirmation in state DRAFTING that finds no draft
    (the branch [if not draft]). *)
Definition empty_draft_confirm (msg : InboundMessage) (s : Session) : bool :=
  negb (bool_decide (channel msg = "system"))
  && awaiting s && negb (is_cancel_memory msg)
  && (is_confirm_save msg || is_save_memory msg)
  && bool_decide
       (strip (get_str_or_empty (metadata s) "memory_draft") = "").

(** The turn runs the agent loop. *)
Definition enters_loop (msg : InboundMessage) (st : State) : bool :=
  bool_decide (channel msg = "system")
  || negb (short_circuits msg (current_session st (session_key msg))).

(** The backend answered this call with a response that has tool calls. *)
Definition wants_tools (c : ChatCall) : bool :=
  match call_result c with
  | Ok r => has_tool_calls r
  | Raise _ => false
  end.

(** The entries for the awaiting-confirm flag and for the draft are both
    present or both absent. *)
Definition both_or_neither (m : gmap string PyVal) : Prop :=
  is_Some (m !! "awaiting_memory_confirm") <-> is_Some (m !! "memory_draft").

(** State NONE, or state DRAFTING with a trimmed draft that is not empty. *)
Definition draft_state_ok (m : gmap string PyVal) : Prop :=
  (m !! "awaiting_memory_confirm" = None /\ m !! "memory_draft" = None)
  \/ (m !! "awaiting_memory_confirm" = Some (PyBool true)
      /\ exists d, m !! "memory_draft" = Some (PyStr d)
                   /\ strip d = d /\ d <> "").

(** The metadata of every session in the store satisfy [P]. *)
Definition store_ok (P : gmap string PyVal -> Prop) (st : State) : Prop :=
  forall k s, sessions st !! k = Some s -> P (metadata s).

(** The states that the turn processor reaches from an empty session
    store, whatever the messages, the backend and the tools do, and
    whatever happens to the collaborators' world between two turns. *)
Inductive reachable : State -> Prop :=
| reachable_init f w :
    reachable {| sessions := ∅; memory_file := f; world := w;
                 chat_log := [] |}
| reachable_turn st msg :
    reachable st -> reachable (_process_message cfg msg st).1
| reachable_world st w :
    reachable st ->
    reachable {| sessions := sessions st; memory_file := memory_file st;
                 world := w; chat_log := chat_log st |}.

(** The backend calls of a run of the agent loop that starts from the
    message list [msgs]: at most [max_iterations] calls, at least one when
    [max_iterations] allows it, and the first with [msgs]. *)
Definition loop_calls (msgs : list ChatMsg) (new : list ChatCall) : Prop :=
  (length new <= Z.to_nat (max_iterations cfg))%nat
  /\ ((1 <= Z.to_nat (max_iterations cfg))%nat -> (1 <= length new)%nat)
  /\ (forall c, head new = Some c -> call_messages c = msgs).

(** The draft that [draft_turn] stores for a response. *)
Definition draft_of_response (resp : LLMResponse Args) : string :=
  let draft := strip (or_default (resp_content resp) "") in
  if bool_decide (draft = "") then draft_placeholder else draft.

(** The message list of the call that asks for a draft. *)
Definition draft_request (transcript : string) : list ChatMsg :=
  [role_content "system"
     "Ты — ассистент, который готовит заметки в память.";
   role_content "user" (memory_prompt transcript)].

(** The ways a turn can go, each with the state it leaves and with what
    it returns or raises. [_process_message] follows one of them
    (see [process_message_outcome]). *)
Section Outcome.

Variable msg : InboundMessage.
Variable st : State.

Let k := session_key msg.
Let s := current_session st k.
Let transcript := join nl (transcript_lines (messages s)).

(** The state after the turn: the session [s'] under the key [k'], the
    calls [new] added to the record. *)
Definition after (k' : string) (s' : Session) (f : option string)
    (w : World) (new : list ChatCall) : State :=
  {| sessions := <[k' := s']> (sessions st);
     memory_file := f;
     world := w;
     chat_log := chat_log st ++ new |}.

Definition to_sender (text : string) : result (option OutboundMessage) :=
  Ok (Some (mkOutbound (channel msg) (chat_id msg) text)).

Inductive turn_outcome
  : State -> result (option OutboundMessage) -> Prop :=
| turn_cancel :
    channel msg <> "system" ->
    awaiting s = true ->
    is_cancel_memory msg = true ->
    turn_outcome
      (after k (pop_meta (pop_meta s "awaiting_memory_confirm")
                  "memory_draft")
         (memory_file st) (world st) [])
      (to_sender cancel_reply)
| turn_no_draft :
    channel msg <> "system" ->
    awaiting s = true ->
    is_cancel_memory msg = false ->
    is_confirm_save msg || is_save_memory msg = true ->
    strip (get_str_or_empty (metadata s) "memory_draft") = "" ->
    turn_outcome
      (after k (pop_meta s "awaiting_memory_confirm")
         (memory_file st) (world st) [])
      (to_sender no_draft_reply)
| turn_saved draft :
    channel msg <> "system" ->
    awaiting s = true ->
    is_cancel_memory msg = false ->
    is_confirm_save msg || is_save_memory msg = true ->
    draft = strip (get_str_or_empty (metadata s) "memory_draft") ->
    draft <> "" ->
    turn_outcome
      (after k (pop_meta (pop_meta s "awaiting_memory_confirm")
                  "memory_draft")
         (MemoryStore.append_long_term (memory_file st) draft)
         (world st) [])
      (to_sender saved_reply)
| turn_edited edited :
    channel msg <> "system" ->
    awaiting s = true ->
    is_cancel_memory msg = false ->
    is_confirm_save msg || is_save_memory msg = false ->
    edited = strip (content msg) ->
    edited <> "" ->
    turn_outcome
      (after k (set_meta s "memory_draft" (PyStr edited))
         (memory_file st) (world st) [])
      (to_sender (edited_reply edited))
| turn_nothing_to_save :
    channel msg <> "system" ->
    awaiting s = false ->
    is_save_memory msg = true ->
    strip transcript = "" ->
    turn_outcome (after k s (memory_file st) (world st) [])
      (to_sender nothing_to_save_reply)
| turn_drafted w resp :
    channel msg <> "system" ->
    awaiting s = false ->
    is_save_memory msg = true ->
    strip transcript <> "" ->
    provider_chat (world st) (draft_request transcript) None (model cfg)
      = (w, Ok resp) ->
    turn_outcome
      (after k
         (set_meta (set_meta s "awaiting_memory_confirm" (PyBool true))
            "memory_draft" (PyStr (draft_of_response resp)))
         (memory_file st) w
         [mkChatCall (draft_request transcript) None (model cfg)
            (Ok resp)])
      (to_sender (draft_reply (draft_of_response resp)))
| turn_draft_raised w e :
    channel msg <> "system" ->
    awaiting s = false ->
    is_save_memory msg = true ->
    strip transcript <> "" ->
    provider_chat (world st) (draft_request transcript) None (model cfg)
      = (w, Raise e) ->
    turn_outcome
      (after k s (memory_file st) w
         [mkChatCall (draft_request transcript) None (model cfg)
            (Raise e)])
      (Raise e)
| turn_answered w new final :
    channel msg <> "system" ->
    short_circuits msg s = false ->
    loop_calls
      (build_messages (get_history s) (content msg)
         (match media msg with [] => None | _ :: _ => Some (media msg) end))
      new ->
    (forallb wants_tools new = true ->
     final = fallback_content
     /\ length new = Z.to_nat (max_iterations cfg)) ->
    turn_outcome
      (after k
         (add_message (add_message s "user" (content msg))
            "assistant" final)
         (memory_file st) w new)
      (to_sender final)
| turn_raised w new e :
    channel msg <> "system" ->
    short_circuits msg s = false ->
    loop_calls
      (build_messages (get_history s) (content msg)
         (match media msg with [] => None | _ :: _ => Some (media msg) end))
      new ->
    forallb wants_tools new = false ->
    turn_outcome (after k s (memory_file st) w new) (Raise e)
| turn_system_answered origin_channel origin_chat_id w new final :
    channel msg = "system" ->
    resolve_origin (chat_id msg) = Ok (origin_channel, origin_chat_id) ->
    let k' := origin_channel +:+ ":" +:+ origin_chat_id in
    let s' := current_session st k' in
    loop_calls (build_messages (get_history s') (content msg) None) new ->
    (forallb wants_tools new = true ->
     final = system_fallback_content
     /\ length new = Z.to_nat (max_iterations cfg)) ->
    turn_outcome
      (after k'
         (add_message
            (add_message s' "user"
               ("[System: " +:+ sender_id msg +:+ "] " +:+ content msg))
            "assistant" final)
         (memory_file st) w new)
      (Ok (Some (mkOutbound origin_channel origin_chat_id final)))
| turn_system_raised origin_channel origin_chat_id w new e :
    channel msg = "system" ->
    resolve_origin (chat_id msg) = Ok (origin_channel, origin_chat_id) ->
    let k' := origin_channel +:+ ":" +:+ origin_chat_id in
    let s' := current_session st k' in
    loop_calls (build_messages (get_history s') (content msg) None) new ->
    forallb wants_tools new = false ->
    turn_outcome (after k' s' (memory_file st) w new) (Raise e).

End Outcome.

(** The histories of the store hold user and assistant entries only. *)
Definition conversational (m : Message) : Prop :=
  role m = "user" \/ role m = "assistant".

Definition conversational_histories (st : State) : Prop :=
  forall k s, sessions st !! k = Some s -> Forall conversational (messages s).

(** The key of the session that a turn works on, and the user entry that
    it commits. *)
Definition turn_key (msg : InboundMessage) : string :=
  if bool_decide (channel msg = "system") then
    match resolve_origin (chat_id msg) with
    | Ok (origin_channel, origin_chat_id) =>
        origin_channel +:+ ":" +:+ origin_chat_id
    | Raise _ => session_key msg
    end
  else session_key msg.

Definition user_entry (msg : InboundMessage) : string :=
  if bool_decide (channel msg = "system")
  then "[System: " +:+ sender_id msg +:+ "] " +:+ content msg
  else content msg.

End Vocabulary.

(** ** A scripted backend

    A concrete set of collaborators, for running the turn processor: the
    world is the list of the responses the backend will give, in order (once
    the script is used up it answers [done] without tool calls); every tool
    returns [ok]; the context builder keeps role and content. *)
Module Scripted.

Definition script : Type := list (result (LLMResponse nat)).

Definition scripted_chat (w : script) (msgs : list Message)
    (tools : option (list string)) (model : string)
  : script * result (LLMResponse nat) :=
  match w with
  | r :: w' => (w', r)
  | [] => ([], Ok (mkResponse (Some "done") []))
  end.

#[export] Instance collaborators : Collaborators := {|
  World := script;
  ChatMsg := Message;
  ToolDef := string;
  Args := nat;
  role_content := mkMessage;
  json_dumps := fun _ => "{}";
  provider_chat := scripted_chat;
  get_definitions := fun _ => ["read_file"; "message"];
  tools_execute := fun w _ _ => (w, "ok");
  set_tool_contexts := fun w _ _ => w;
  get_history := messages;
  build_messages := fun history current _ =>
    history ++ [mkMessage "user" current];
  add_assistant_message := fun msgs content _ =>
    msgs ++ [mkMessage "assistant" (default "" content)];
  add_tool_result := fun msgs _ _ result =>
    msgs ++ [mkMessage "tool" result]
|}.

Definition cfg (n : Z) : AgentConfig := {| model := "fake"; max_iterations := n |}.

Definition init (w : script) : State :=
  {| sessions := ∅; memory_file := None; world := w; chat_log := [] |}.

(** A state with one session. *)
Definition with_session (k : string) (s : Session) (w : script) : State :=
  {| sessions := {[ k := s ]}; memory_file := None; world := w;
     chat_log := [] |}.

Definition inbound (ch cid text : string) : InboundMessage :=
  {| channel := ch; sender_id := "u"; chat_id := cid; content := text;
     media := [] |}.

(** A response that asks for one tool call. *)
Definition wants_tool : result (LLMResponse nat) :=
  Ok (mkResponse None [mkToolCall "call_1" "read_file" 0%nat]).

Definition answers (text : string) : result (LLMResponse nat) :=
  Ok (mkResponse (Some text) []).

(** The session of the tests: one exchange in the history. *)
Definition seeded : Session :=
  {| messages := [mkMessage "user" "Привет";
                  mkMessage "assistant" "Здравствуйте"];
     metadata := ∅ |}.

(** A session in state DRAFTING. *)
Definition drafting (d : string) : Session :=
  {| messages := messages seeded;
     metadata := <["memory_draft" := PyStr d]>
                   (<["awaiting_memory_confirm" := PyBool true]> ∅) |}.

Definition hello : InboundMessage := inbound "telegram" "1" "hi".

(** The answer of the provider of the tests. *)
Definition fake_draft : string :=
  "# Резюме" +:+ PyStr.nl +:+ PyStr.nl +:+ "- тест".

(** A session with the flag set and a draft that is present but empty. *)
Definition blank_draft : Session :=
  {| messages := messages seeded;
     metadata := <["memory_draft" := PyStr ""]>
                   (<["awaiting_memory_confirm" := PyBool true]> ∅) |}.

End Scripted.

(** ** The files of the memory directory

    The other methods of [MemoryStore] read and write the files of
    [workspace/memory]. The directory is a map from file names to the text
    on disk, on a platform whose line separator is the line feed, where
    writing in text mode leaves the text as it is. *)
Module MemoryDir.

Import PyStr.

(** The carriage return. *)
Definition cr : ascii := ascii_of_N 13.

(** Reading in text mode: a carriage return, with the line feed that
    follows it if there is one, is read as one line feed. *)
Fixpoint universal_newlines (s : string) : string :=
  match s with
  | EmptyString => EmptyString
  | String c t =>
      if is_code 13 c then
        match t with
        | String c' t' =>
            if is_code 10 c' then String c' (universal_newlines t')
            else String (ascii_of_N 10) (universal_newlines t)
        | EmptyString => String (ascii_of_N 10) EmptyString
        end
      else String c (universal_newlines t)
  end.

(** The name of [self.memory_file] in the directory. *)
Definition memory_file_name : string := "MEMORY.md".

(** [read_long_term] *)
Definition read_long_term (fs : gmap string string) : string :=
  match fs !! memory_file_name with
  | Some text => universal_newlines text
  | None => ""
  end.

(** [write_long_term] *)
Definition write_long_term (fs : gmap string string) (content : string)
  : gmap string string :=
  <[memory_file_name := content]> fs.

(** [ensure_long_term_exists] *)
Definition ensure_long_term_exists (fs : gmap string string)
  : gmap string string :=
  match fs !! memory_file_name with
  | Some _ => fs
  | None => <[memory_file_name := MemoryStore.template]> fs
  end.

(** [append_long_term]: the three writes to the file opened for
    appending. *)
Definition append_long_term (fs : gmap string string) (content : string)
  : gmap string string :=
  let entry := strip content in
  if bool_decide (entry = "") then fs
  else
    let fs := ensure_long_term_exists fs in
    <[memory_file_name :=
        default "" (fs !! memory_file_name)
        +:+ (nl +:+ nl +:+ "---" +:+ nl +:+ nl) +:+ entry +:+ nl]> fs.

Section Daily.

(** What [today_date()] of nanobot/utils/helpers.py returns; the helper is
    not among the sources. *)
Variable today : string.

(** The name of [get_today_file()] in the directory. *)
Definition get_today_file : string := today +:+ ".md".

(** [read_today] *)
Definition read_today (fs : gmap string string) : string :=
  match fs !! get_today_file with
  | Some text => universal_newlines text
  | None => ""
  end.

(** [append_today] *)
Definition append_today (fs : gmap string string) (content : string)
  : gmap string string :=
  let content :=
    match fs !! get_today_file with
    | Some text => universal_newlines text +:+ nl +:+ content
    | None => ("# " +:+ today +:+ nl +:+ nl) +:+ content
    end in
  <[get_today_file := content]> fs.

(** [get_memory_context] *)
Definition get_memory_context (fs : gmap string string) : string :=
  let long_term := read_long_term fs in
  let parts :=
    if bool_decide (long_term = "") then []
    else [("## Long-term Memory" +:+ nl) +:+ long_term] in
  let today_notes := read_today fs in
  let parts :=
    if bool_decide (today_notes = "") then parts
    else parts ++ [("## Today's Notes" +:+ nl) +:+ today_notes] in
  join (nl +:+ nl) parts.

End Daily.

End MemoryDir.

(** ** The run loop and the direct entry point *)
Section RunLoop.

Context {C : Collaborators}.
Variable cfg : AgentConfig.

(** The agent's state and the messages that [run] has given to
    [bus.publish_outbound], in order. What tools publish on the bus is part
    of the collaborators' world. *)
Record RunState := mkRunState {
  agent : State;
  published : list OutboundMessage
}.

(** The message of the [except Exception] handler of [run]; [e] is
    [str(e)]. *)
Definition error_message (msg : InboundMessage) (e : string)
  : OutboundMessage :=
  mkOutbound (channel msg) (chat_id msg)
    ("Sorry, I encountered an error: " +:+ e).

(** The body of the [while] loop of [run] for a message that
    [consume_inbound] delivered. *)
Definition run_iteration (msg : InboundMessage) (rs : RunState) : RunState :=
  match _process_message cfg msg (agent rs) with
  | (st, Ok (Some response)) =>
      {| agent := st; published := published rs ++ [response] |}
  | (st, Ok None) => {| agent := st; published := published rs |}
  | (st, Raise e) =>
      {| agent := st; published := published rs ++ [error_message msg e] |}
  end.

(** What one [wait_for] of [run] ends with. *)
Inductive Delivery :=
| Delivered (msg : InboundMessage)
| TimedOut.

(** [run] over the deliveries it gets while [_running] stays set: a
    time-out goes on with the next iteration. *)
Fixpoint run (deliveries : list Delivery) (rs : RunState) : RunState :=
  match deliveries with
  | [] => rs
  | Delivered msg :: rest => run rest (run_iteration msg rs)
  | TimedOut :: rest => run rest rs
  end.

(** [process_direct(content, session_key)] *)
Definition process_direct (content : string) (session_key : string)
  : State -> State * result string :=
  fun st =>
    let msg :=
      {| channel := "cli"; sender_id := "user"; chat_id := "direct";
         content := content; media := [] |} in
    match _process_message cfg msg st with
    | (st', Ok response) =>
        (st', Ok (match response with
                  | Some r => out_content r
                  | None => ""
                  end))
    | (st', Raise e) => (st', Raise e)
    end.

(** The address a turn replies to, and its fallback text. *)
Definition reply_address (msg : InboundMessage) : string * string :=
  if bool_decide (channel msg = "system") then
    match resolve_origin (chat_id msg) with
    | Ok origin => origin
    | Raise _ => (channel msg, chat_id msg)
    end
  else (channel msg, chat_id msg).

Definition fallback_of (msg : InboundMessage) : string :=
  if bool_decide (channel msg = "system")
  then system_fallback_content else fallback_content.

(** The call was made as the agent loop of this configuration makes it:
    with the configured model and, in some state [w] of the collaborators,
    with the tool definitions that the registry gives in [w]; its result is
    what the backend answers in [w] to these messages and definitions. *)
Definition loop_call (c : ChatCall) : Prop :=
  call_model c = model cfg
  /\ exists w,
      call_tools c = Some (get_definitions w)
      /\ (provider_chat w (call_messages c) (Some (get_definitions w))
            (model cfg)).2 = call_result c.

(** The collaborators when the agent loop of a turn starts: the tool
    contexts have been set to the address that the turn replies to. *)
Definition tools_world (msg : InboundMessage) (st : State) : World :=
  set_tool_contexts (world st) (reply_address msg).1 (reply_address msg).2.

(** The messages that the agent loop of a turn starts from. *)
Definition initial_messages (msg : InboundMessage) (st : State)
  : list ChatMsg :=
  build_messages
    (get_history
       (current_session st
          ((reply_address msg).1 +:+ ":" +:+ (reply_address msg).2)))
    (content msg)
    (if bool_decide (channel msg = "system") then None
     else match media msg with [] => None | _ :: _ => Some (media msg) end).

(** The first call of the agent loop of a turn: to the messages built
    from the history of the session, with the tool definitions of the
    registry as it is once the tool contexts are set. *)
Definition first_loop_call (msg : InboundMessage) (st : State) (c : ChatCall)
  : Prop :=
  call_messages c = initial_messages msg st
  /\ call_tools c = Some (get_definitions (tools_world msg st))
  /\ call_result c =
     (provider_chat (tools_world msg st) (initial_messages msg st)
        (Some (get_definitions (tools_world msg st))) (model cfg)).2.

(** The calls that a turn makes to the backend. *)
Definition calls_of_turn (msg : InboundMessage) (st : State)
  : list ChatCall :=
  drop (length (chat_log st)) (chat_log (_process_message cfg msg st).1).

(** No tool is executed in the turn: the memory state machine answers it,
    or no response of the backend asks for a tool. *)
Definition no_tool_ran (msg : InboundMessage) (st : State) : Prop :=
  enters_loop msg st = false
  \/ Forall (fun c => wants_tools c = false) (calls_of_turn msg st).

(** What the loop returns, read off the last call it made. *)
Definition loop_result_of (new : list ChatCall) (r : result (option string))
  : Prop :=
  match last new with
  | Some c =>
      match call_result c with
      | Ok resp =>
          if has_tool_calls resp then r = Ok None
          else r = Ok (resp_content resp)
      | Raise e => r = Raise e
      end
  | None => r = Ok None
  end.

(** The messages among the deliveries. *)
Definition delivered (deliveries : list Delivery) : list InboundMessage :=
  omap (fun d => match d with Delivered msg => Some msg | TimedOut => None end)
    deliveries.

(** What [run] hands to [publish_outbound] for a delivered message: a
    message to the address that the turn replies to, or the apology of the
    [except] handler. *)
Definition sent_for (msg : InboundMessage) (o : OutboundMessage) : Prop :=
  (out_channel o, out_chat_id o) = reply_address msg
  \/ exists e, o = error_message msg e.

(** The history entry has no content after trimming. *)
Definition blank_entry (m : Message) : Prop :=
  PyStr.strip (msg_content m) = "".

End RunLoop.

(** ** The string operations on examples *)

Example strip_ex : PyStr.strip "  save  " = "save".
Proof. reflexivity. Qed.

(** U+00A0 in front, U+2003 and U+3000 behind. *)
Example strip_unicode_ex :
  PyStr.strip " save to memory 　" = "save to memory".
Proof. vm_compute. reflexivity. Qed.

Example strip_inner_ex : PyStr.strip " a b " = "a b".
Proof. reflexivity. Qed.

Example lower_ex : PyStr.lower "Сохранить в Памяти" = "сохранить в памяти".
Proof. vm_compute. reflexivity. Qed.

Example lower_ex2 : PyStr.lower "Отмена SaVe Ё" = "отмена save ё".
Proof. vm_compute. reflexivity. Qed.

Example lower_alphabet_ex :
  PyStr.lower "АБВГДЕЁЖЗИЙКЛМНОПРСТУФХЦЧШЩЪЫЬЭЮЯ"
  = "абвгдеёжзийклмнопрстуфхцчшщъыьэюя".
Proof. vm_compute. reflexivity. Qed.

Example split_ex : PyStr.split1 ":" "a:b:c" = ["a"; "b:c"].
Proof. reflexivity. Qed.

Example join_ex : PyStr.join PyStr.nl ["a"; "b"] = "a" +:+ PyStr.nl +:+ "b".
Proof. reflexivity. Qed.

(** ** Facts about the string operations *)
Module PyStrFacts.

Import PyStr.

Lemma lstrip_unfold s :
  lstrip s =
  match s with
  | EmptyString => EmptyString
  | String c1 t1 =>
      if ws1 c1 then lstrip t1
      else match t1 with
           | String c2 t2 =>
               if ws2 c1 c2 then lstrip t2
               else match t2 with
                    | String c3 t3 => if ws3 c1 c2 c3 then lstrip t3 else s
                    | EmptyString => s
                    end
           | EmptyString => s
           end
  end.
Proof. destruct s; reflexivity. Qed.

Lemma rstrip_unfold c t :
  rstrip (String c t) =
  if blank (String c t) then EmptyString else String c (rstrip t).
Proof. reflexivity. Qed.

(** Induction on strings where the hypothesis is available for every
    shorter string. *)
Lemma string_length_ind (P : string -> Prop) :
  (forall s, (forall t, (String.length t < String.length s)%nat -> P t) -> P s) ->
  forall s, P s.
Proof.
  intros step s.
  remember (String.length s) as n eqn:Hn.
  revert s Hn.
  induction n as [n IH] using lt_wf_ind.
  intros s ->. apply step. intros t Ht. by apply (IH _ Ht).
Qed.

Ltac by_prefix_cases s :=
  let c1 := fresh "c1" in
  let c2 := fresh "c2" in
  let c3 := fresh "c3" in
  let t := fresh "t" in
  destruct s as [|c1 [|c2 [|c3 t]]].

Lemma lstrip_not_starts s : starts_ws s = false -> lstrip s = s.
Proof.
  rewrite lstrip_unfold. by_prefix_cases s; cbn; try done.
  - by destruct (ws1 c1).
  - destruct (ws1 c1); [done|]. by destruct (ws2 c1 c2).
  - destruct (ws1 c1); [done|]. destruct (ws2 c1 c2); [done|].
    by destruct (ws3 c1 c2 c3).
Qed.

Lemma lstrip_no_ws s : starts_ws (lstrip s) = false.
Proof.
  induction s as [s IH] using string_length_ind.
  rewrite lstrip_unfold.
  by_prefix_cases s; try done; cbn [starts_ws].
  - destruct (ws1 c1) eqn:E1; [done|]. cbn. by rewrite E1.
  - destruct (ws1 c1) eqn:E1; [apply IH; cbn; lia|].
    destruct (ws2 c1 c2) eqn:E2; [done|]. cbn. by rewrite E1, E2.
  - destruct (ws1 c1) eqn:E1; [apply IH; cbn; lia|].
    destruct (ws2 c1 c2) eqn:E2; [apply IH; cbn; lia|].
    destruct (ws3 c1 c2 c3) eqn:E3; [apply IH; cbn; lia|].
    cbn. by rewrite E1, E2, E3.
Qed.

Lemma lstrip_idemp s : lstrip (lstrip s) = lstrip s.
Proof. apply lstrip_not_starts, lstrip_no_ws. Qed.

Lemma app_cons c t b : String c t +:+ b = String c (t +:+ b).
Proof. reflexivity. Qed.

Lemma app_empty_l b : "" +:+ b = b.
Proof. reflexivity. Qed.

(** White space in front of a string is stripped up to the rest. *)
Lemma lstrip_app_blank a b : lstrip a = "" -> lstrip (a +:+ b) = lstrip b.
Proof.
  induction a as [a IH] using string_length_ind.
  intros Ha. rewrite lstrip_unfold in Ha.
  by_prefix_cases a; [done|..];
    rewrite (lstrip_unfold (_ +:+ b)), ?app_cons, ?app_empty_l.
  - destruct (ws1 c1) eqn:E1; done.
  - destruct (ws1 c1) eqn:E1.
    { apply (IH (String c2 "")); [cbn; lia|done]. }
    destruct (ws2 c1 c2) eqn:E2; done.
  - destruct (ws1 c1) eqn:E1.
    { apply (IH (String c2 (String c3 t))); [cbn; lia|done]. }
    destruct (ws2 c1 c2) eqn:E2.
    { apply (IH (String c3 t)); [cbn; lia|done]. }
    destruct (ws3 c1 c2 c3) eqn:E3; [|done].
    apply IH; [cbn; lia|done].
Qed.

Lemma blank_spec s : blank s = true <-> lstrip s = "".
Proof. unfold blank. by rewrite bool_decide_eq_true. Qed.

Lemma blank_false s : blank s = false <-> lstrip s <> "".
Proof. unfold blank. by rewrite bool_decide_eq_false. Qed.

(** What [rstrip] cuts off is white space. *)
Lemma rstrip_decomp s : exists w, s = rstrip s +:+ w /\ lstrip w = "".
Proof.
  induction s as [|c t [w [Hw Hb]]].
  - by exists "".
  - rewrite rstrip_unfold. destruct (blank (String c t)) eqn:E.
    + exists (String c t). split; [done|]. by apply blank_spec.
    + exists w. split; [|done]. by rewrite app_cons, <-Hw.
Qed.

Lemma blank_rstrip s : lstrip (rstrip s) = "" -> lstrip s = "".
Proof.
  intros H. destruct (rstrip_decomp s) as [w [Hw Hb]].
  rewrite Hw. by rewrite lstrip_app_blank.
Qed.

Lemma rstrip_idemp s : rstrip (rstrip s) = rstrip s.
Proof.
  induction s as [|c t IH]; [done|].
  rewrite rstrip_unfold. destruct (blank (String c t)) eqn:E; [done|].
  rewrite rstrip_unfold, IH.
  destruct (blank (String c (rstrip t))) eqn:E'; [|done].
  apply blank_false in E. destruct E. apply blank_rstrip.
  rewrite rstrip_unfold.
  destruct (blank (String c t)); [done|]. by apply blank_spec.
Qed.

(** Cutting at the end does not uncover white space in front. *)
Lemma rstrip_no_ws s : starts_ws s = false -> starts_ws (rstrip s) = false.
Proof.
  by_prefix_cases s; try done.
  - rewrite rstrip_unfold. by destruct (blank _).
  - rewrite !rstrip_unfold. intros H.
    destruct (blank (String c1 _)); [done|].
    destruct (blank (String c2 _)); cbn in *.
    + by apply orb_false_elim in H as [-> _].
    + done.
  - rewrite !rstrip_unfold. intros H.
    destruct (blank (String c1 _)); [done|].
    cbn in H. apply orb_false_elim in H as [H1 H].
    apply orb_false_elim in H as [H2 H3].
    destruct (blank (String c2 _)); [by cbn; rewrite H1|].
    destruct (blank (String c3 _)); [by cbn; rewrite H1, H2|].
    cbn. by rewrite H1, H2, H3.
Qed.

(** [str.strip] is idempotent. *)
Lemma strip_idemp s : strip (strip s) = strip s.
Proof.
  unfold strip.
  rewrite (lstrip_not_starts (rstrip (lstrip s))).
  - apply rstrip_idemp.
  - apply rstrip_no_ws, lstrip_no_ws.
Qed.

Lemma strip_empty : strip "" = "".
Proof. reflexivity. Qed.

Lemma lower_empty : lower "" = "".
Proof. reflexivity. Qed.

End PyStrFacts.

(** ** Facts about the turn processor *)
Section LoopFacts.

Context {C : Collaborators}.
Variable cfg : AgentConfig.

Lemma state_eta (st : State) :
  {| sessions := sessions st; memory_file := memory_file st;
     world := world st; chat_log := chat_log st |} = st.
Proof. by destruct st. Qed.

(** Tool execution returns, and changes the collaborators' world only. *)
Lemma run_tools_spec calls msgs st :
  exists w msgs',
    run_tools calls msgs st =
    ({| sessions := sessions st; memory_file := memory_file st;
        world := w; chat_log := chat_log st |}, Ok msgs').
Proof.
  revert msgs st. induction calls as [|tc calls IH]; intros msgs st.
  - exists (world st), msgs. cbn. unfold ret. by rewrite state_eta.
  - cbn. unfold bind, execute.
    destruct (tools_execute (world st) _ _) as [w r].
    edestruct IH as (w' & msgs' & ->). by eexists _, _.
Qed.

(** The agent loop: it leaves the session store and MEMORY.md alone, calls
    the backend at most [n] times, first with the message list it was
    given, and ends without a final content when every response had tool
    calls. *)
Lemma agent_loop_spec n msgs st :
  exists w new r,
    agent_loop cfg n msgs st =
    ({| sessions := sessions st; memory_file := memory_file st;
        world := w; chat_log := chat_log st ++ new |}, r)
    /\ (length new <= n)%nat
    /\ (forallb wants_tools new = true -> r = Ok None /\ length new = n)
    /\ ((1 <= n)%nat -> (1 <= length new)%nat)
    /\ (forall c, head new = Some c -> call_messages c = msgs).
Proof.
  revert msgs st. induction n as [|n IH]; intros msgs st.
  - exists (world st), [], (Ok None). cbn. unfold ret.
    rewrite app_nil_r, state_eta. split_and!; auto with lia. done.
  - cbn. unfold bind, definitions, chat. cbn.
    destruct (provider_chat (world st) msgs _ _) as [w [resp|e]] eqn:Hc.
    + destruct (has_tool_calls resp) eqn:Htc.
      * edestruct (run_tools_spec (tool_calls resp)) as (w1 & msgs1 & ->).
        cbn.
        edestruct (IH msgs1) as (w2 & new & r & -> & Hlen & Hall & Hpos & _).
        cbn. eexists w2, (_ :: new), r. rewrite <-app_assoc. cbn.
        split; [reflexivity|]. split_and!.
        -- lia.
        -- intros [_ H]%andb_prop. destruct (Hall H) as [-> ->]. done.
        -- lia.
        -- by intros c [= <-].
      * eexists w, [_], _. cbn. split; [reflexivity|]. split_and!.
        -- lia.
        -- unfold wants_tools. cbn. by rewrite Htc.
        -- lia.
        -- by intros c [= <-].
    + eexists w, [_], _. cbn. split; [reflexivity|]. split_and!.
      * lia.
      * done.
      * lia.
      * by intros c [= <-].
Qed.

Ltac use_loop_spec :=
  match goal with
  | |- context [agent_loop _ ?n ?m ?st0] =>
      destruct (agent_loop_spec n m st0)
        as (w & new & r & -> & Hlen & Hall & Hpos & Hhd)
  end.

Lemma get_or_create_spec k st :
  get_or_create k st = (touch k st, Ok (current_session st k)).
Proof.
  unfold get_or_create, touch, current_session.
  destruct (sessions st !! k) as [s|] eqn:Hs; cbn; [|done].
  by rewrite (insert_id _ _ _ Hs), state_eta.
Qed.

(** [split(":", 1)] on a string with a colon gives the part before the
    first colon and the rest. *)
Lemma split1_contains s :
  PyStr.contains ":" s = true ->
  exists a b, PyStr.split1 ":" s = [a; b]
              /\ s = a +:+ ":" +:+ b
              /\ PyStr.contains ":" a = false.
Proof.
  induction s as [|c t IH]; cbn; [done|].
  case_bool_decide as Hc.
  - intros _. exists "", t. by subst c.
  - intros (a & b & -> & -> & Ha)%IH.
    exists (String c a), b. cbn. by rewrite bool_decide_false.
Qed.

(** Origin resolution never raises. *)
Lemma resolve_origin_total chat_id :
  exists origin, resolve_origin chat_id = Ok origin.
Proof.
  unfold resolve_origin.
  destruct (PyStr.contains ":" chat_id) eqn:Hc; [|by eexists].
  apply split1_contains in Hc as (a & b & -> & _). by eexists.
Qed.

Lemma after_nil st k s f w :
  after st k s f w [] =
  {| sessions := <[k := s]> (sessions st); memory_file := f; world := w;
     chat_log := chat_log st |}.
Proof. unfold after. by rewrite app_nil_r. Qed.

Lemma same_state msg st st1 st2 r :
  turn_outcome cfg msg st st1 r -> st1 = st2 ->
  turn_outcome cfg msg st st2 r.
Proof. by intros H <-. Qed.

(** Every turn goes one of the ways of [turn_outcome]. *)
Lemma process_message_outcome msg st :
  turn_outcome cfg msg st
    (_process_message cfg msg st).1 (_process_message cfg msg st).2.
Proof.
  unfold _process_message. case_bool_decide as Hsys.
  - unfold _process_system_message, bind, lift.
    destruct (resolve_origin_total (chat_id msg)) as [[c i] Hr].
    rewrite Hr, get_or_create_spec. cbn.
    use_loop_spec. cbn.
    destruct r as [final|e]; cbn.
    + rewrite insert_insert_eq.
      apply (turn_system_answered cfg msg st c i w new
               (or_default final system_fallback_content)); try done.
      intros [[= ->] ->]%Hall. done.
    + apply (turn_system_raised cfg msg st c i w new e); try done.
      destruct (forallb wants_tools new); [by destruct Hall|done].
  - unfold bind. rewrite get_or_create_spec.
    set (k := session_key msg). set (s := current_session st k).
    assert (Hnormal : short_circuits msg s = false ->
      turn_outcome cfg msg st
        (normal_turn cfg msg s (touch k st)).1
        (normal_turn cfg msg s (touch k st)).2).
    { intros Hsc. unfold normal_turn, bind, update_tool_contexts. cbn.
      use_loop_spec. cbn.
      destruct r as [final|e]; cbn.
      - rewrite insert_insert_eq.
        apply (turn_answered cfg msg st w new
                 (or_default final fallback_content)); try done.
        intros [[= ->] ->]%Hall. done.
      - apply (turn_raised cfg msg st w new e); try done.
        destruct (forallb wants_tools new); [by destruct Hall|done]. }
    assert (Hafter : forall b,
      b = is_save_memory msg && negb (awaiting s) ->
      short_circuits msg s = b ->
      turn_outcome cfg msg st
        ((if b then draft_turn cfg msg s else normal_turn cfg msg s)
           (touch k st)).1
        ((if b then draft_turn cfg msg s else normal_turn cfg msg s)
           (touch k st)).2).
    { intros b Hd Hsc. destruct b; [|by apply Hnormal].
      symmetry in Hd.
      apply andb_prop in Hd as [Hsave Haw%negb_true_iff].
      unfold draft_turn. case_bool_decide as Ht.
      - cbn. eapply same_state; [by apply turn_nothing_to_save|].
        apply after_nil.
      - unfold bind, chat.
        change (world (touch k st)) with (world st).
        fold (draft_request (PyStr.join PyStr.nl
                               (transcript_lines (messages s)))).
        destruct (provider_chat (world st) _ None (model cfg))
          as [w [resp|e]] eqn:Hchat; cbn.
        + rewrite insert_insert_eq.
          by apply (turn_drafted cfg msg st w resp).
        + by apply (turn_draft_raised cfg msg st w e). }
    destruct (awaiting s) eqn:Haw; cbn [andb].
    + destruct (is_cancel_memory msg) eqn:Hcancel.
      { cbn. eapply same_state; [by apply turn_cancel|].
        by rewrite after_nil, insert_insert_eq. }
      destruct (is_confirm_save msg || is_save_memory msg) eqn:Hconf.
      { case_bool_decide as Hdraft; cbn.
        - eapply same_state; [by apply turn_no_draft|].
          by rewrite after_nil, insert_insert_eq.
        - eapply same_state; [by eapply turn_saved|].
          by rewrite after_nil, insert_insert_eq. }
      cbn [orb negb].
      case_bool_decide as Hed; cbn [negb].
      * apply Hafter; [done|]. unfold short_circuits. fold s. rewrite Haw.
        apply orb_false_elim in Hconf as [-> ->].
        by rewrite Hcancel, bool_decide_true.
      * cbn. eapply same_state; [by eapply turn_edited|].
        by rewrite after_nil, insert_insert_eq.
    + apply Hafter; [done|]. unfold short_circuits. fold s. rewrite Haw.
      by rewrite andb_true_r.
Qed.

End LoopFacts.

(** ** Origin resolution *)
Section OriginResolution.

Lemma contains_spec c s :
  PyStr.contains c s = true <-> c ∈ String.list_ascii_of_string s.
Proof.
  induction s as [|c' t IH]; cbn.
  - split; [done|]. intros H. by apply elem_of_nil in H.
  - rewrite elem_of_cons. case_bool_decide as Hc.
    + subst c'. split; auto.
    + rewrite IH. split; [auto|]. by intros [->|].
Qed.

Lemma contains_app_colon a b : PyStr.contains ":" (a +:+ ":" +:+ b) = true.
Proof.
  induction a as [|c t IH]; [done|].
  rewrite PyStrFacts.app_cons. cbn. by case_bool_decide.
Qed.

Lemma split1_app_colon a b :
  PyStr.contains ":" a = false ->
  PyStr.split1 ":" (a +:+ ":" +:+ b) = [a; b].
Proof.
  induction a as [|c t IH]; [done|].
  rewrite PyStrFacts.app_cons. cbn.
  case_bool_decide; [done|]. intros Ht. by rewrite (IH Ht).
Qed.

(** What [resolve_origin] returns, by the two cases of the source. *)
Lemma resolve_origin_cases chat_id c i :
  resolve_origin chat_id = Ok (c, i) ->
  (chat_id = c +:+ ":" +:+ i /\ PyStr.contains ":" c = false)
  \/ (c = "cli" /\ i = chat_id /\ PyStr.contains ":" chat_id = false).
Proof.
  unfold resolve_origin.
  destruct (PyStr.contains ":" chat_id) eqn:Hc.
  - apply split1_contains in Hc as (a & b & -> & -> & Ha).
    cbn. intros [= <- <-]. by left.
  - intros [= <- <-]. by right.
Qed.

(** C4: a chat_id with a colon is split at its first colon, into the
    origin channel before it and the origin chat_id after it, further
    colons included; a chat_id without a colon resolves to the channel
    [cli] and to itself. [telegram:42] resolves to [telegram] and [42]. *)
Theorem origin_resolution :
  (forall a b,
      ":"%char ∉ String.list_ascii_of_string a ->
      resolve_origin (a +:+ ":" +:+ b) = Ok (a, b))
  /\ (forall chat_id,
        ":"%char ∉ String.list_ascii_of_string chat_id ->
        resolve_origin chat_id = Ok ("cli", chat_id))
  /\ resolve_origin "telegram:42" = Ok ("telegram", "42").
Proof.
  split_and!; [| |done].
  - intros a b Ha. unfold resolve_origin.
    rewrite contains_app_colon, split1_app_colon; [done|].
    destruct (PyStr.contains ":" a) eqn:E; [|done].
    by apply contains_spec in E.
  - intros chat_id Hc. unfold resolve_origin.
    destruct (PyStr.contains ":" chat_id) eqn:E; [|done].
    by apply contains_spec in E.
Qed.

Lemma origin_resolution_witness :
  resolve_origin "telegram:42:topic:7" = Ok ("telegram", "42:topic:7")
  /\ resolve_origin "direct" = Ok ("cli", "direct").
Proof.
  destruct origin_resolution as (Hsplit & Hnone & _). split.
  - apply (Hsplit "telegram" "42:topic:7"). vm_compute.
    intros H. repeat (apply elem_of_cons in H as [H|H]; [discriminate H|]).
    by apply elem_of_nil in H.
  - apply (Hnone "direct"). vm_compute.
    intros H. repeat (apply elem_of_cons in H as [H|H]; [discriminate H|]).
    by apply elem_of_nil in H.
Defined.

End OriginResolution.

(** Case analysis on the way a turn went. *)
Ltac turn_cases cfg msg st H :=
  let st' := fresh "st'" in
  let r := fresh "r" in
  pose proof (process_message_outcome cfg msg st) as H;
  destruct (_process_message cfg msg st) as [st' r];
  cbn [fst snd] in H.

(** ** Properties of a turn *)
Section TurnProperties.

Context {C : Collaborators}.
Variable cfg : AgentConfig.


Lemma current_session_after st k s f w new :
  current_session (after st k s f w new) k = s.
Proof. unfold current_session, after. cbn. by rewrite lookup_insert_eq. Qed.

Lemma sessions_after_ne st k s f w new k' :
  k <> k' -> sessions (after st k s f w new) !! k' = sessions st !! k'.
Proof. intros Hk. unfold after. cbn. by rewrite lookup_insert_ne. Qed.

Lemma turn_key_system msg c i :
  channel msg = "system" ->
  resolve_origin (chat_id msg) = Ok (c, i) ->
  turn_key msg = c +:+ ":" +:+ i.
Proof.
  intros Hsys Hr. unfold turn_key. by rewrite bool_decide_true, Hr.
Qed.

Lemma turn_key_user msg :
  channel msg <> "system" -> turn_key msg = session_key msg.
Proof. intros Hsys. unfold turn_key. by rewrite bool_decide_false. Qed.

Lemma enters_loop_user msg st :
  channel msg <> "system" ->
  enters_loop msg st
  = negb (short_circuits msg (current_session st (session_key msg))).
Proof. intros Hsys. unfold enters_loop. by rewrite bool_decide_false. Qed.

(** The guards of the memory state machine, read as [short_circuits]. *)
Lemma short_circuits_cancel msg s :
  awaiting s = true -> is_cancel_memory msg = true ->
  short_circuits msg s = true.
Proof. unfold short_circuits. by intros -> ->. Qed.

Lemma short_circuits_confirm msg s :
  awaiting s = true ->
  is_confirm_save msg || is_save_memory msg = true ->
  short_circuits msg s = true.
Proof.
  unfold short_circuits. intros -> H.
  by rewrite <-(orb_assoc (is_cancel_memory msg)), H, orb_true_r.
Qed.

Lemma short_circuits_edit msg s :
  awaiting s = true -> PyStr.strip (content msg) <> "" ->
  short_circuits msg s = true.
Proof.
  unfold short_circuits. intros -> H.
  by rewrite bool_decide_false, orb_true_r.
Qed.

Lemma short_circuits_save msg s :
  awaiting s = false -> is_save_memory msg = true ->
  short_circuits msg s = true.
Proof. unfold short_circuits. by intros -> ->. Qed.

(** Closes the cases where the memory state machine answers although the
    turn is known to enter the agent loop. *)
Ltac not_short_circuit Hsys Hloop :=
  rewrite (enters_loop_user _ _ Hsys) in Hloop;
  apply negb_true_iff in Hloop;
  first [ rewrite short_circuits_cancel in Hloop by done
        | rewrite short_circuits_confirm in Hloop by done
        | rewrite short_circuits_edit in Hloop by done
        | rewrite short_circuits_save in Hloop by done ];
  discriminate Hloop.

(** A turn that enters the agent loop either commits the user entry and
    the final answer to the session of the turn and returns the answer, or
    raises, out of a backend call, and leaves the session as it was. *)
Lemma loop_turn_outcome msg st :
  enters_loop msg st = true ->
  let k := turn_key msg in
  let s := current_session st k in
  exists w new,
    (length new <= Z.to_nat (max_iterations cfg))%nat
    /\ ((1 <= Z.to_nat (max_iterations cfg))%nat -> (1 <= length new)%nat)
    /\ ((exists o,
            _process_message cfg msg st =
            (after st k
               (add_message (add_message s "user" (user_entry msg))
                  "assistant" (out_content o))
               (memory_file st) w new,
             Ok (Some o))
            /\ (forallb wants_tools new = true ->
                length new = Z.to_nat (max_iterations cfg)
                /\ out_content o =
                   if bool_decide (channel msg = "system")
                   then system_fallback_content else fallback_content))
        \/ (exists e,
              _process_message cfg msg st
              = (after st k s (memory_file st) w new, Raise e)
              /\ forallb wants_tools new = false)).
Proof.
  intros Hloop. turn_cases cfg msg st H.
  destruct H as
    [Hsys Haw Hcancel | Hsys Haw Hcancel Hconf Hdraft
    | draft Hsys Haw Hcancel Hconf Hdraft Hne
    | edited Hsys Haw Hcancel Hconf -> Hed
    | Hsys Haw Hsave Ht | w resp Hsys Haw Hsave Ht Hchat
    | w e Hsys Haw Hsave Ht Hchat
    | w new final Hsys Hsc (Hlen & Hpos & Hhd) Hall
    | w new e Hsys Hsc (Hlen & Hpos & Hhd) Hall
    | c i w new final Hsys Hr k' s' (Hlen & Hpos & Hhd) Hall
    | c i w new e Hsys Hr k' s' (Hlen & Hpos & Hhd) Hall];
    try (by not_short_circuit Hsys Hloop).
  - exists w, new. split_and!; [done..|]. left.
    eexists (mkOutbound _ _ final). cbn [out_content].
    rewrite (turn_key_user _ Hsys). unfold user_entry.
    rewrite !bool_decide_false by done. split; [done|].
    by intros [-> ->]%Hall.
  - exists w, new. split_and!; [done..|]. right. exists e.
    by rewrite (turn_key_user _ Hsys).
  - exists w, new. split_and!; [done..|]. left.
    eexists (mkOutbound _ _ final). cbn [out_content].
    rewrite (turn_key_system _ _ _ Hsys Hr). unfold user_entry.
    rewrite !bool_decide_true by done. split; [done|].
    by intros [-> ->]%Hall.
  - exists w, new. split_and!; [done..|]. right. exists e.
    by rewrite (turn_key_system _ _ _ Hsys Hr).
Qed.

(** C2: with [max_iterations >= 1], a turn calls the model backend at most
    [max_iterations] times. *)
Theorem chat_calls_bounded msg st :
  1 <= max_iterations cfg ->
  exists new,
    chat_log (_process_message cfg msg st).1 = chat_log st ++ new
    /\ Z.of_nat (length new) <= max_iterations cfg.
Proof.
  intros Hmax. turn_cases cfg msg st H.
  destruct H as [| | | | | | | ? ? ? ? ? (Hlen & _) | ? ? ? ? ? (Hlen & _)
                 | ? ? ? ? ? ? ? ? ? (Hlen & _) | ? ? ? ? ? ? ? ? ? (Hlen & _)];
    eexists; (split; [reflexivity|]); cbn; lia.
Qed.

(** C10: a turn that returns, returns one outbound message, addressed to
    the channel and chat_id of the inbound message or, for a system
    message, to the resolved origin. *)
Theorem reply_is_addressed msg st st' r :
  _process_message cfg msg st = (st', Ok r) ->
  exists text,
    (channel msg <> "system"
     /\ r = Some (mkOutbound (channel msg) (chat_id msg) text))
    \/ (channel msg = "system"
        /\ exists origin_channel origin_chat_id,
            resolve_origin (chat_id msg)
            = Ok (origin_channel, origin_chat_id)
            /\ r = Some (mkOutbound origin_channel origin_chat_id text)).
Proof.
  intros Heq. pose proof (process_message_outcome cfg msg st) as H.
  rewrite Heq in H. cbn [fst snd] in H.
  inversion H; subst; try (eexists; left; split; [done|reflexivity]).
  eexists. right. split; [done|]. by eexists _, _.
Qed.

(** A turn that the memory state machine answers leaves the history of
    its session as it was, and calls the backend at most once. *)
Lemma state_machine_turn_outcome msg st :
  enters_loop msg st = false ->
  let k := session_key msg in
  let s := current_session st k in
  channel msg <> "system"
  /\ exists s' f w new r,
      _process_message cfg msg st = (after st k s' f w new, r)
      /\ messages s' = messages s
      /\ (length new <= 1)%nat.
Proof.
  intros Hloop. unfold enters_loop in Hloop.
  apply orb_false_elim in Hloop as [Hsys%bool_decide_eq_false Hsc].
  apply negb_false_iff in Hsc. split; [done|].
  turn_cases cfg msg st H.
  destruct H;
    try (match goal with
         | Hsc' : short_circuits _ _ = false |- _ =>
             by rewrite Hsc' in Hsc
         end);
    try done;
    by eexists _, _, _, _, _; split_and!; [reflexivity|cbn..]; auto.
Qed.

(** C3, amended: when every response of the agent loop had tool calls, the
    loop ran [max_iterations] times and the turn returns, with the fallback
    text of [_process_message] or, for a system message, the one of
    [_process_system_message]. *)
Theorem fallback_after_exhaustion msg st new :
  enters_loop msg st = true ->
  chat_log (_process_message cfg msg st).1 = chat_log st ++ new ->
  forallb wants_tools new = true ->
  length new = Z.to_nat (max_iterations cfg)
  /\ exists o,
      (_process_message cfg msg st).2 = Ok (Some o)
      /\ out_content o =
         if bool_decide (channel msg = "system")
         then system_fallback_content else fallback_content.
Proof.
  intros Hloop Hlog Hall.
  destruct (loop_turn_outcome msg st Hloop)
    as (w & new' & _ & _ & [(o & Heq & Hfb) | (e & Heq & Hraise)]);
    rewrite Heq in Hlog |- *; cbn in Hlog;
    apply app_inv_head in Hlog as ->.
  - destruct (Hfb Hall) as [Hlen Ho]. split; [done|]. by exists o.
  - by rewrite Hall in Hraise.
Qed.

(** C1, amended: a turn that enters the agent loop and returns adds two
    entries to the history of its session, the user entry and the final
    answer, whatever the tool calls in between; a turn that the memory
    state machine answers leaves the history as it was. The other sessions
    are not touched. *)
Theorem history_grows_by_two msg st st' out :
  _process_message cfg msg st = (st', Ok out) ->
  let k := turn_key msg in
  (forall k', k <> k' -> sessions st' !! k' = sessions st !! k')
  /\ if enters_loop msg st
     then exists o,
         out = Some o
         /\ messages (current_session st' k)
            = messages (current_session st k)
              ++ [mkMessage "user" (user_entry msg);
                  mkMessage "assistant" (out_content o)]
     else messages (current_session st' k)
          = messages (current_session st k).
Proof.
  intros Heq k. subst k. destruct (enters_loop msg st) eqn:Hloop.
  - destruct (loop_turn_outcome msg st Hloop)
      as (w & new & _ & _ & [(o & Heq' & _) | (e & Heq' & _)]);
      rewrite Heq' in Heq; [|done].
    injection Heq as <- <-. split.
    + intros k' Hk. by apply sessions_after_ne.
    + exists o. split; [done|]. rewrite current_session_after. cbn.
      by rewrite <-app_assoc.
  - destruct (state_machine_turn_outcome msg st Hloop)
      as (Hsys & s' & f & w & new & r & Heq' & Hmsgs & _).
    rewrite Heq' in Heq. injection Heq as <- ->.
    rewrite (turn_key_user _ Hsys). split.
    + intros k' Hk. by apply sessions_after_ne.
    + by rewrite current_session_after.
Qed.

(** An input that is blank after trimming matches no trigger phrase. *)
Lemma blank_no_trigger msg :
  PyStr.strip (content msg) = "" ->
  is_cancel_memory msg = false
  /\ is_confirm_save msg = false
  /\ is_save_memory msg = false.
Proof.
  intros H. unfold is_cancel_memory, is_confirm_save, is_save_memory.
  rewrite H. by vm_compute.
Qed.

(** The cancel phrases are neither confirm nor request-save phrases. *)
Lemma cancel_not_confirm msg :
  is_confirm_save msg || is_save_memory msg = true ->
  is_cancel_memory msg = false.
Proof.
  unfold is_cancel_memory, is_confirm_save, is_save_memory, PyStr.str_in.
  intros H. apply bool_decide_eq_false. intros Hc.
  apply orb_prop in H as [H|H]; apply bool_decide_eq_true in H;
    repeat (apply elem_of_cons in Hc as [Hc|Hc];
            [rewrite Hc in H;
             repeat (apply elem_of_cons in H as [H|H]; [discriminate H|]);
             by apply elem_of_nil in H|]);
    by apply elem_of_nil in Hc.
Qed.

(** C7: a request to save, with no draft in flight and an empty
    transcript, is answered that there is nothing to save; the backend is
    not called, and the session and MEMORY.md stay as they were. *)
Theorem nothing_to_save msg st :
  let k := session_key msg in
  let s := current_session st k in
  channel msg <> "system" ->
  awaiting s = false ->
  is_save_memory msg = true ->
  PyStr.strip (PyStr.join PyStr.nl (transcript_lines (messages s))) = "" ->
  let st' := (_process_message cfg msg st).1 in
  (_process_message cfg msg st).2
  = Ok (Some (mkOutbound (channel msg) (chat_id msg)
                nothing_to_save_reply))
  /\ chat_log st' = chat_log st
  /\ world st' = world st
  /\ memory_file st' = memory_file st
  /\ current_session st' k = s.
Proof.
  intros k s Hsys Haw Hsave Ht. subst s k. cbn zeta.
  turn_cases cfg msg st H.
  destruct H as [| | | | | | | ? ? ? ? Hsc | ? ? ? ? Hsc | |];
    try congruence.
  - cbn. rewrite app_nil_r. split_and!; try done.
    apply current_session_after.
  - by rewrite short_circuits_save in Hsc.
  - by rewrite short_circuits_save in Hsc.
Qed.

(** C6, amended: in state DRAFTING an input that is blank after trimming
    is not taken by the memory state machine; the turn goes on with the
    normal processing. The metadata stay as they were, the backend is
    called when [max_iterations >= 1], and a turn that returns adds its
    two entries to the history. *)
Theorem blank_input_while_drafting msg st :
  let k := session_key msg in
  let s := current_session st k in
  channel msg <> "system" ->
  awaiting s = true ->
  PyStr.strip (content msg) = "" ->
  let st' := (_process_message cfg msg st).1 in
  _process_message cfg msg st = normal_turn cfg msg s (touch k st)
  /\ metadata (current_session st' k) = metadata s
  /\ (exists new,
        chat_log st' = chat_log st ++ new
        /\ (1 <= max_iterations cfg -> (1 <= length new)%nat))
  /\ (forall out,
        (_process_message cfg msg st).2 = Ok out ->
        exists o,
          out = Some o
          /\ messages (current_session st' k)
             = messages s
               ++ [mkMessage "user" (content msg);
                   mkMessage "assistant" (out_content o)]).
Proof.
  intros k s Hsys Haw Hblank. cbn zeta.
  destruct (blank_no_trigger msg Hblank) as (Hcancel & Hconf & Hsave).
  split.
  { unfold _process_message, bind.
    rewrite bool_decide_false, get_or_create_spec by done.
    fold k s. rewrite Haw, Hcancel, Hconf, Hsave. cbn.
    by rewrite bool_decide_true. }
  assert (Hloop : enters_loop msg st = true).
  { rewrite enters_loop_user by done. fold k s. unfold short_circuits.
    rewrite Haw, Hcancel, Hconf, Hsave. by rewrite bool_decide_true. }
  destruct (loop_turn_outcome msg st Hloop)
    as (w & new & _ & Hpos & [(o & -> & _) | (e & -> & _)]);
    rewrite (turn_key_user _ Hsys); fold k s; cbn [fst snd];
    rewrite current_session_after.
  - split_and!; [done| |].
    + exists new. split; [done|]. intros Hmax. apply Hpos. lia.
    + intros out [= <-]. exists o. split; [done|]. cbn.
      unfold user_entry. rewrite bool_decide_false by done.
      by rewrite <-app_assoc.
  - split_and!; [done| |done].
    exists new. split; [done|]. intros Hmax. apply Hpos. lia.
Qed.

(** MEMORY.md is written by the confirm branch only: a turn on a session
    that is not awaiting a confirmation leaves the file as it was. *)
Lemma memory_file_unchanged msg st :
  awaiting (current_session st (session_key msg)) = false ->
  memory_file (_process_message cfg msg st).1 = memory_file st.
Proof.
  intros Haw. turn_cases cfg msg st H. destruct H; congruence || done.
Qed.

(** [append_long_term] of a trimmed text that is not empty. *)
Lemma append_long_term_draft f x :
  PyStr.strip x <> "" ->
  MemoryStore.append_long_term f (PyStr.strip x)
  = Some (default MemoryStore.template f
          +:+ (PyStr.nl +:+ PyStr.nl +:+ "---" +:+ PyStr.nl +:+ PyStr.nl)
          +:+ PyStr.strip x +:+ PyStr.nl).
Proof.
  intros Hx. unfold MemoryStore.append_long_term.
  rewrite PyStrFacts.strip_idemp, bool_decide_false by done.
  by destruct f.
Qed.

Lemma awaiting_popped s :
  awaiting (pop_meta (pop_meta s "awaiting_memory_confirm") "memory_draft")
  = false.
Proof.
  unfold awaiting, get_truthy, pop_meta. cbn.
  by rewrite lookup_delete_ne, lookup_delete_eq.
Qed.

(** C5: in state DRAFTING, on the confirm phrase or the request-save
    phrase, the backend is not called. A draft that is not empty is
    appended to MEMORY.md, flag and draft are removed and the reply says
    that the draft is saved; after that, a further turn of this
    conversation does not write to MEMORY.md. Without a draft the reply
    says that there is none, and MEMORY.md is not written. *)
Theorem confirm_transition msg st :
  let k := session_key msg in
  let s := current_session st k in
  let draft := PyStr.strip (get_str_or_empty (metadata s) "memory_draft") in
  channel msg <> "system" ->
  awaiting s = true ->
  is_confirm_save msg || is_save_memory msg = true ->
  let st' := (_process_message cfg msg st).1 in
  chat_log st' = chat_log st
  /\ (draft <> "" ->
      (_process_message cfg msg st).2
      = Ok (Some (mkOutbound (channel msg) (chat_id msg) saved_reply))
      /\ memory_file st'
         = Some (default MemoryStore.template (memory_file st)
                 +:+ (PyStr.nl +:+ PyStr.nl +:+ "---"
                      +:+ PyStr.nl +:+ PyStr.nl)
                 +:+ draft +:+ PyStr.nl)
      /\ metadata (current_session st' k)
         = delete "memory_draft"
             (delete "awaiting_memory_confirm" (metadata s))
      /\ forall msg2,
          session_key msg2 = k ->
          memory_file (_process_message cfg msg2 st').1 = memory_file st')
  /\ (draft = "" ->
      (_process_message cfg msg st).2
      = Ok (Some (mkOutbound (channel msg) (chat_id msg) no_draft_reply))
      /\ memory_file st' = memory_file st
      /\ metadata (current_session st' k)
         = delete "awaiting_memory_confirm" (metadata s)).
Proof.
  intros k s draft Hsys Haw Hconf. subst draft s k. cbn zeta.
  pose proof (cancel_not_confirm msg Hconf) as Hcancel.
  pose proof (short_circuits_confirm msg _ Haw Hconf) as Hsc.
  pose proof (memory_file_unchanged) as Hmem.
  turn_cases cfg msg st H.
  destruct H as [| | draft ? ? ? ? -> Hdraft| | | | | | | |];
    try congruence; cbn [fst snd].
  - rewrite current_session_after. cbn. rewrite app_nil_r.
    split_and!; done.
  - rewrite current_session_after. cbn. rewrite app_nil_r.
    split_and!; try done. intros _. split_and!; try done.
    + by apply append_long_term_draft.
    + intros msg2 Hk. apply Hmem. rewrite Hk, current_session_after.
      apply awaiting_popped.
Qed.

Lemma length_app (a b : string) :
  String.length (a +:+ b) = (String.length a + String.length b)%nat.
Proof.
  induction a as [|c a IH]; [done|].
  rewrite PyStrFacts.app_cons. cbn. by rewrite IH.
Qed.

(** C8: a turn on a system message reads the history of the session under
    the key of the resolved origin, commits to it, and addresses the reply
    to the origin; neither this key nor this address is the one of the
    system message itself. *)
Theorem system_turn_uses_origin msg st :
  channel msg = "system" ->
  exists origin_channel origin_chat_id,
    resolve_origin (chat_id msg) = Ok (origin_channel, origin_chat_id)
    /\ (origin_channel, origin_chat_id) <> (channel msg, chat_id msg)
    /\ origin_channel +:+ ":" +:+ origin_chat_id <> session_key msg
    /\ let k := origin_channel +:+ ":" +:+ origin_chat_id in
       let s := current_session st k in
       exists w new,
         (forall call,
             head new = Some call ->
             call_messages call
             = build_messages (get_history s) (content msg) None)
         /\ ((exists final,
                 _process_message cfg msg st =
                 (after st k
                    (add_message
                       (add_message s "user"
                          ("[System: " +:+ sender_id msg +:+ "] "
                           +:+ content msg))
                       "assistant" final)
                    (memory_file st) w new,
                  Ok (Some (mkOutbound origin_channel origin_chat_id
                              final))))
             \/ (exists e,
                   _process_message cfg msg st
                   = (after st k s (memory_file st) w new, Raise e))).
Proof.
  intros Hsys.
  assert (Haddr : forall c i,
    resolve_origin (chat_id msg) = Ok (c, i) ->
    (c, i) <> (channel msg, chat_id msg)
    /\ c +:+ ":" +:+ i <> session_key msg).
  { intros c i [[Hid Hc] | (-> & -> & Hc)]%resolve_origin_cases.
    - split.
      + intros [= _ Hi]. apply (f_equal String.length) in Hid.
        rewrite Hi, !length_app in Hid. cbn in Hid. lia.
      + unfold session_key. rewrite <-Hid, Hsys. intros Hk.
        apply (f_equal String.length) in Hk.
        rewrite !length_app in Hk. cbn in Hk. lia.
    - split; [by rewrite Hsys|]. unfold session_key. by rewrite Hsys. }
  turn_cases cfg msg st H.
  destruct H as [| | | | | | | | | c i w new final _ Hr k s (_ & _ & Hhd) _
                 | c i w new e _ Hr k s (_ & _ & Hhd) _];
    try done; destruct (Haddr c i Hr) as [Hne Hkey];
    exists c, i; split_and!; try done; exists w, new; split; try done.
  - left. by exists final.
  - right. by exists e.
Qed.

End TurnProperties.

(** ** The draft invariant *)
Section DraftInvariant.

Context {C : Collaborators}.
Variable cfg : AgentConfig.

Lemma draft_state_ok_both m : draft_state_ok m -> both_or_neither m.
Proof.
  unfold both_or_neither.
  intros [[-> ->] | [-> (d & -> & _)]]; split; by eauto.
Qed.

Lemma current_session_ok P st k :
  P ∅ -> store_ok P st -> P (metadata (current_session st k)).
Proof.
  intros Hempty Hst. unfold current_session.
  destruct (sessions st !! k) as [s|] eqn:Hs; cbn; eauto.
Qed.

Lemma store_ok_after P st k s f w new :
  store_ok P st -> P (metadata s) -> store_ok P (after st k s f w new).
Proof.
  intros Hst Hs k' s'. unfold after. cbn.
  destruct (decide (k = k')) as [->|Hk].
  - rewrite lookup_insert_eq. by intros [= <-].
  - rewrite lookup_insert_ne by done. apply Hst.
Qed.

Lemma draft_state_ok_empty : draft_state_ok ∅.
Proof. by left. Qed.

Lemma both_or_neither_empty : both_or_neither ∅.
Proof. unfold both_or_neither. by rewrite !lookup_empty. Qed.

(** In state DRAFTING with a well-formed draft, the confirm branch finds
    the draft. *)
Lemma draft_state_ok_awaiting s :
  draft_state_ok (metadata s) -> awaiting s = true ->
  metadata s !! "awaiting_memory_confirm" = Some (PyBool true)
  /\ PyStr.strip (get_str_or_empty (metadata s) "memory_draft") <> "".
Proof.
  unfold awaiting, get_truthy, get_str_or_empty.
  intros [[-> _] | [Ha (d & -> & Hd & Hne)]]; [done|].
  intros _. split; [done|]. unfold truthy, py_str.
  rewrite bool_decide_false by done. cbn [negb]. by rewrite Hd.
Qed.

Lemma draft_of_response_ok resp :
  PyStr.strip (draft_of_response resp) = draft_of_response resp
  /\ draft_of_response resp <> "".
Proof.
  unfold draft_of_response. case_bool_decide as Hd.
  - split; [by vm_compute|done].
  - split; [apply PyStrFacts.strip_idemp|done].
Qed.

(** A turn keeps every session in state NONE or in state DRAFTING with a
    trimmed draft that is not empty. *)
Lemma turn_keeps_draft_state msg st :
  store_ok draft_state_ok st ->
  store_ok draft_state_ok (_process_message cfg msg st).1.
Proof.
  intros Hst. turn_cases cfg msg st H.
  pose proof (fun k => current_session_ok _ st k draft_state_ok_empty Hst)
    as Hcur.
  destruct H as
    [Hsys Haw Hcancel | Hsys Haw Hcancel Hconf Hdraft
    | draft Hsys Haw Hcancel Hconf Hdraft Hne
    | edited Hsys Haw Hcancel Hconf -> Hed
    | Hsys Haw Hsave Ht | w resp Hsys Haw Hsave Ht Hchat
    | w e Hsys Haw Hsave Ht Hchat
    | w new final Hsys Hsc Hcalls Hall
    | w new e Hsys Hsc Hcalls Hall
    | c i w new final Hsys Hr k' s' Hcalls Hall
    | c i w new e Hsys Hr k' s' Hcalls Hall];
    apply store_ok_after; try done; try apply Hcur.
  - left. cbn. by rewrite lookup_delete_eq, lookup_delete_ne,
      lookup_delete_eq.
  - by destruct (draft_state_ok_awaiting _ (Hcur _) Haw).
  - left. cbn. by rewrite lookup_delete_eq, lookup_delete_ne,
      lookup_delete_eq.
  - destruct (draft_state_ok_awaiting _ (Hcur _) Haw) as [Ha _].
    right. cbn. rewrite lookup_insert_ne, lookup_insert_eq by done.
    split; [done|]. eexists. split; [done|].
    split; [apply PyStrFacts.strip_idemp|done].
  - right. cbn.
    rewrite lookup_insert_ne, !lookup_insert_eq by done.
    split; [done|]. eexists. split; [done|]. apply draft_of_response_ok.
Qed.

Lemma reachable_draft_state st :
  reachable cfg st -> store_ok draft_state_ok st.
Proof.
  induction 1 as [f w | st msg _ IH | st w _ IH].
  - intros k s. cbn. by rewrite lookup_empty.
  - by apply turn_keeps_draft_state.
  - exact IH.
Qed.

(** Apart from the confirmation that finds no draft, a turn keeps flag
    and draft both present or both absent, from any state. *)
Lemma turn_keeps_both_or_neither msg st :
  empty_draft_confirm msg (current_session st (session_key msg)) = false ->
  store_ok both_or_neither st ->
  store_ok both_or_neither (_process_message cfg msg st).1.
Proof.
  intros Hnot Hst. turn_cases cfg msg st H.
  pose proof (fun k => current_session_ok _ st k both_or_neither_empty Hst)
    as Hcur.
  destruct H as
    [Hsys Haw Hcancel | Hsys Haw Hcancel Hconf Hdraft
    | draft Hsys Haw Hcancel Hconf Hdraft Hne
    | edited Hsys Haw Hcancel Hconf -> Hed
    | Hsys Haw Hsave Ht | w resp Hsys Haw Hsave Ht Hchat
    | w e Hsys Haw Hsave Ht Hchat
    | w new final Hsys Hsc Hcalls Hall
    | w new e Hsys Hsc Hcalls Hall
    | c i w new final Hsys Hr k' s' Hcalls Hall
    | c i w new e Hsys Hr k' s' Hcalls Hall];
    try (apply store_ok_after; try done; try apply Hcur);
    unfold both_or_neither; cbn.
  - by rewrite lookup_delete_eq, lookup_delete_ne, lookup_delete_eq.
  - unfold empty_draft_confirm in Hnot.
    by rewrite bool_decide_false, Haw, Hcancel, Hconf, Hdraft,
      bool_decide_true in Hnot.
  - by rewrite lookup_delete_eq, lookup_delete_ne, lookup_delete_eq.
  - rewrite lookup_insert_ne, lookup_insert_eq by done.
    unfold awaiting, get_truthy in Haw.
    destruct (metadata _ !! "awaiting_memory_confirm"); [|done].
    split; by eauto.
  - rewrite lookup_insert_ne, !lookup_insert_eq by done. split; by eauto.
Qed.

Lemma empty_draft_confirm_true msg s :
  empty_draft_confirm msg s = true ->
  channel msg <> "system"
  /\ awaiting s = true
  /\ is_cancel_memory msg = false
  /\ is_confirm_save msg || is_save_memory msg = true
  /\ PyStr.strip (get_str_or_empty (metadata s) "memory_draft") = "".
Proof.
  unfold empty_draft_confirm. intros H.
  apply andb_prop in H as [H Hdraft%bool_decide_eq_true].
  apply andb_prop in H as [H Hconf].
  apply andb_prop in H as [H Hcancel%negb_true_iff].
  apply andb_prop in H as [Hsys%negb_true_iff%bool_decide_eq_false Haw].
  done.
Qed.

(** The turn processor commits user and assistant entries only, so the
    transcript of a request to save is made of these. *)
Lemma reachable_conversational st :
  reachable cfg st -> conversational_histories st.
Proof.
  induction 1 as [f w | st msg _ IH | st w _ IH]; [|  |exact IH].
  { intros k s. cbn. by rewrite lookup_empty. }
  assert (Hcur : forall k, Forall conversational
                             (messages (current_session st k))).
  { intros k. unfold current_session.
    destruct (sessions st !! k) as [s|] eqn:Hs; cbn; [by eapply IH|done]. }
  assert (Hafter : forall k s f w new,
             Forall conversational (messages s) ->
             conversational_histories (after st k s f w new)).
  { intros k s f w new Hs k' s'. unfold after. cbn.
    destruct (decide (k = k')) as [->|Hk].
    - rewrite lookup_insert_eq. by intros [= <-].
    - rewrite lookup_insert_ne by done. apply IH. }
  turn_cases cfg msg st H.
  destruct H; apply Hafter; cbn; try apply Hcur;
    rewrite !Forall_app, !Forall_singleton;
    (split_and!; [apply Hcur|by left|by right]).
Qed.

(** C9: in every state that the turn processor reaches, flag and draft are
    both present or both absent in every session, and every turn taken in
    such a state, whichever transition of the memory state machine it is
    (draft creation, edit, confirm, cancel, the confirmation that finds no
    draft), keeps it so. Draft creation, edit, confirm and cancel, and the
    turns that leave the metadata alone, keep it from any state at all; the
    confirmation that finds no draft does not occur in a state so
    reached. *)
Theorem draft_invariant :
  (forall st, reachable cfg st -> store_ok both_or_neither st)
  /\ (forall st msg,
        reachable cfg st ->
        store_ok both_or_neither (_process_message cfg msg st).1)
  /\ (forall st msg,
        empty_draft_confirm msg (current_session st (session_key msg))
        = false ->
        store_ok both_or_neither st ->
        store_ok both_or_neither (_process_message cfg msg st).1)
  /\ (forall st msg,
        reachable cfg st ->
        empty_draft_confirm msg (current_session st (session_key msg))
        = false).
Proof.
  assert (Hreach : forall st, reachable cfg st -> store_ok both_or_neither st).
  { intros st Hst%reachable_draft_state k s Hs.
    by apply draft_state_ok_both, (Hst k). }
  split_and!.
  - exact Hreach.
  - intros st msg Hst. by apply Hreach, reachable_turn.
  - intros st msg. apply turn_keeps_both_or_neither.
  - intros st msg Hst%reachable_draft_state.
    destruct (empty_draft_confirm msg _) eqn:Hedc; [|done].
    pose proof (current_session_ok _ st (session_key msg)
                  draft_state_ok_empty Hst) as Hk.
    apply empty_draft_confirm_true in Hedc as (_ & Haw & _ & _ & Hdraft).
    by destruct (draft_state_ok_awaiting _ Hk Haw).
Qed.

End DraftInvariant.

(** ** Runs with the scripted backend *)
Section Runs.

Import Scripted.

Lemma chat_calls_bounded_witness :
  exists new,
    chat_log
      (_process_message (cfg 2) hello
         (init [wants_tool; wants_tool; answers "late"])).1
    = [] ++ new
    /\ Z.of_nat (length new) <= 2.
Proof.
  apply (chat_calls_bounded (cfg 2) hello
           (init [wants_tool; wants_tool; answers "late"])).
  simpl. lia.
Defined.

Lemma reply_is_addressed_witness :
  exists text,
    (channel hello <> "system"
     /\ Some (mkOutbound "telegram" "1" "yo")
        = Some (mkOutbound (channel hello) (chat_id hello) text))
    \/ (channel hello = "system"
        /\ exists origin_channel origin_chat_id,
            resolve_origin (chat_id hello)
            = Ok (origin_channel, origin_chat_id)
            /\ Some (mkOutbound "telegram" "1" "yo")
               = Some (mkOutbound origin_channel origin_chat_id text)).
Proof.
  apply (reply_is_addressed (cfg 3) hello (init [wants_tool; answers "yo"])
           (_process_message (cfg 3) hello
              (init [wants_tool; answers "yo"])).1).
  vm_compute. reflexivity.
Defined.

(** One iteration allowed, and the backend asks for a tool: the reply is
    the fallback text of the source, which is not the text of the
    specification. *)
Lemma fallback_text_differs :
  let turn := _process_message (cfg 1) hello (init [wants_tool]) in
  forallb wants_tools (chat_log turn.1) = true
  /\ length (chat_log turn.1) = Z.to_nat (max_iterations (cfg 1))
  /\ turn.2
     = Ok (Some (mkOutbound "telegram" "1"
                   "I've completed processing but have no response to give."))
  /\ out_content
       (mkOutbound "telegram" "1"
          "I've completed processing but have no response to give.")
     <> "processing incomplete, no answer produced".
Proof. vm_compute. split_and!; done. Qed.

Lemma fallback_after_exhaustion_witness :
  let st := init [wants_tool; wants_tool; answers "late"] in
  let turn := _process_message (cfg 2) hello st in
  length (chat_log turn.1) = 2%nat
  /\ exists o,
      turn.2 = Ok (Some o) /\ out_content o = fallback_content.
Proof.
  apply (fallback_after_exhaustion (cfg 2) hello
           (init [wants_tool; wants_tool; answers "late"])
           (chat_log
              (_process_message (cfg 2) hello
                 (init [wants_tool; wants_tool; answers "late"])).1)).
  - vm_compute. reflexivity.
  - reflexivity.
  - vm_compute. reflexivity.
Defined.

(** A cancellation in state DRAFTING is a turn that returns and leaves
    the history as it was. *)
Lemma cancel_keeps_history :
  let st := with_session "telegram:1" (drafting "abc") [] in
  let turn :=
    _process_message (cfg 3) (inbound "telegram" "1" "cancel") st in
  turn.2 = Ok (Some (mkOutbound "telegram" "1" cancel_reply))
  /\ messages (current_session turn.1 "telegram:1")
     = messages (current_session st "telegram:1")
  /\ length (messages (current_session turn.1 "telegram:1"))
     <> (length (messages (current_session st "telegram:1")) + 2)%nat.
Proof. vm_compute. split_and!; done. Qed.

Lemma history_grows_by_two_witness :
  let st := with_session "telegram:1" seeded [wants_tool; answers "yo"] in
  let st' := (_process_message (cfg 3) hello st).1 in
  (forall k', "telegram:1" <> k' -> sessions st' !! k' = sessions st !! k')
  /\ exists o,
      Some (mkOutbound "telegram" "1" "yo") = Some o
      /\ messages (current_session st' "telegram:1")
         = messages seeded
           ++ [mkMessage "user" "hi"; mkMessage "assistant" (out_content o)].
Proof.
  apply (history_grows_by_two (cfg 3) hello
           (with_session "telegram:1" seeded [wants_tool; answers "yo"])
           (_process_message (cfg 3) hello
              (with_session "telegram:1" seeded
                 [wants_tool; answers "yo"])).1
           (Some (mkOutbound "telegram" "1" "yo"))).
  vm_compute. reflexivity.
Defined.

Lemma confirm_transition_witness :
  let st := with_session "telegram:1" (drafting "abc") [] in
  let st' := (_process_message (cfg 3) (inbound "telegram" "1" "save") st).1 in
  (_process_message (cfg 3) (inbound "telegram" "1" "save") st).2
  = Ok (Some (mkOutbound "telegram" "1" saved_reply))
  /\ memory_file st'
     = Some (MemoryStore.template
             +:+ (PyStr.nl +:+ PyStr.nl +:+ "---" +:+ PyStr.nl +:+ PyStr.nl)
             +:+ "abc" +:+ PyStr.nl)
  /\ metadata (current_session st' "telegram:1") = ∅.
Proof.
  destruct (confirm_transition (cfg 3) (inbound "telegram" "1" "save")
              (with_session "telegram:1" (drafting "abc") []))
    as (_ & Hsaved & _).
  - vm_compute. discriminate.
  - vm_compute. reflexivity.
  - vm_compute. reflexivity.
  - destruct Hsaved as (Hr & Hf & Hm & _).
    + vm_compute. discriminate.
    + split_and!; [exact Hr|exact Hf|].
      etransitivity; [exact Hm|]. vm_compute. reflexivity.
Defined.

(** Blank input in state DRAFTING: the backend is called and the history
    grows. *)
Lemma blank_input_reaches_backend :
  let st := with_session "telegram:1" (drafting "abc") [answers "hm"] in
  let msg := inbound "telegram" "1" "   " in
  let turn := _process_message (cfg 3) msg st in
  awaiting (current_session st "telegram:1") = true
  /\ PyStr.strip (content msg) = ""
  /\ length (chat_log turn.1) = 1%nat
  /\ chat_log st = []
  /\ messages (current_session turn.1 "telegram:1")
     = messages (current_session st "telegram:1")
       ++ [mkMessage "user" "   "; mkMessage "assistant" "hm"].
Proof. vm_compute. split_and!; done. Qed.

Lemma blank_input_while_drafting_witness :
  let st := with_session "telegram:1" (drafting "abc") [answers "hm"] in
  let msg := inbound "telegram" "1" "   " in
  let st' := (_process_message (cfg 3) msg st).1 in
  _process_message (cfg 3) msg st
  = normal_turn (cfg 3) msg (drafting "abc") (touch "telegram:1" st)
  /\ metadata (current_session st' "telegram:1") = metadata (drafting "abc").
Proof.
  destruct (blank_input_while_drafting (cfg 3)
              (inbound "telegram" "1" "   ")
              (with_session "telegram:1" (drafting "abc") [answers "hm"]))
    as (Hfall & Hmeta & _).
  - vm_compute. discriminate.
  - vm_compute. reflexivity.
  - vm_compute. reflexivity.
  - split; [exact Hfall|exact Hmeta].
Defined.

Lemma nothing_to_save_witness :
  let msg := inbound "telegram" "1" "Save to Memory" in
  let st' := (_process_message (cfg 3) msg (init [])).1 in
  (_process_message (cfg 3) msg (init [])).2
  = Ok (Some (mkOutbound "telegram" "1" nothing_to_save_reply))
  /\ chat_log st' = []
  /\ world st' = []
  /\ memory_file st' = None
  /\ current_session st' "telegram:1" = new_session.
Proof.
  apply (nothing_to_save (cfg 3) (inbound "telegram" "1" "Save to Memory")
           (init [])).
  - vm_compute. discriminate.
  - vm_compute. reflexivity.
  - vm_compute. reflexivity.
  - vm_compute. reflexivity.
Defined.

Lemma system_turn_uses_origin_witness :
  exists origin_channel origin_chat_id,
    resolve_origin "telegram:42" = Ok (origin_channel, origin_chat_id)
    /\ (origin_channel, origin_chat_id) <> ("system", "telegram:42")
    /\ origin_channel +:+ ":" +:+ origin_chat_id <> "system:telegram:42".
Proof.
  destruct (system_turn_uses_origin (cfg 3)
              (inbound "system" "telegram:42" "task done")
              (init [answers "ok"]))
    as (c & i & Hr & Hne & Hk & _).
  - vm_compute. reflexivity.
  - exists c, i. split_and!; [exact Hr|exact Hne|exact Hk].
Defined.

(** Outside the states that the turn processor reaches: on a draft that is
    present but empty, which no turn stores, the confirmation removes the
    flag and leaves the draft. *)
Lemma empty_draft_confirm_leaves_draft :
  let st := with_session "telegram:1" blank_draft [] in
  let turn :=
    _process_message (cfg 3) (inbound "telegram" "1" "save") st in
  store_ok both_or_neither st
  /\ turn.2 = Ok (Some (mkOutbound "telegram" "1" no_draft_reply))
  /\ ~ store_ok both_or_neither turn.1.
Proof.
  cbn zeta. split_and!.
  - intros k s. unfold with_session. cbn.
    intros [<- <-]%lookup_singleton_Some. unfold both_or_neither. cbn.
    split; intros _; by eexists.
  - vm_compute. reflexivity.
  - intros H.
    destruct (H "telegram:1"
                (mkSession (messages seeded)
                   (<["memory_draft" := PyStr ""]> ∅)))
      as [_ Hd].
    + vm_compute. reflexivity.
    + destruct Hd as [v Hv]; [by eexists|]. vm_compute in Hv. discriminate.
Qed.

Lemma draft_invariant_witness :
  let st1 := (_process_message (cfg 3) hello (init [answers "yo"])).1 in
  let st2 :=
    (_process_message (cfg 3) (inbound "telegram" "1" "save to memory")
       {| sessions := sessions st1; memory_file := memory_file st1;
          world := [answers "# Summary"]; chat_log := chat_log st1 |}).1 in
  reachable (cfg 3) st2
  /\ store_ok both_or_neither st2
  /\ store_ok both_or_neither
       (_process_message (cfg 3) (inbound "telegram" "1" "save") st2).1.
Proof.
  cbn zeta.
  match goal with
  | |- reachable _ ?st /\ _ => assert (Hst : reachable (cfg 3) st)
  end.
  { apply reachable_turn, reachable_world, reachable_turn, reachable_init. }
  destruct (draft_invariant (cfg 3)) as (Hreach & Hturn & _).
  split_and!; [exact Hst|by apply Hreach|by apply Hturn].
Defined.

(** The three tests of tests/test_memory_save_flow.py. *)
Example test_save_memory_draft_confirm_writes_file :
  let st0 := with_session "telegram:1" seeded [answers fake_draft] in
  let t1 :=
    _process_message (cfg 20) (inbound "telegram" "1" "Сохранить в памяти")
      st0 in
  let t2 :=
    _process_message (cfg 20) (inbound "telegram" "1" "сохранить") t1.1 in
  (exists resp1, t1.2 = Ok (Some resp1))
  /\ metadata (current_session t1.1 "telegram:1")
       !! "awaiting_memory_confirm" = Some (PyBool true)
  /\ metadata (current_session t1.1 "telegram:1") !! "memory_draft"
     = Some (PyStr fake_draft)
  /\ (exists resp2, t2.2 = Ok (Some resp2))
  /\ memory_file t2.1
     = Some (MemoryStore.template
             +:+ (PyStr.nl +:+ PyStr.nl +:+ "---" +:+ PyStr.nl +:+ PyStr.nl)
             +:+ fake_draft +:+ PyStr.nl)
  /\ awaiting (current_session t2.1 "telegram:1") = false
  /\ metadata (current_session t2.1 "telegram:1") !! "memory_draft" = None.
Proof. vm_compute. split_and!; by eauto. Qed.

Example test_save_memory_cancel_clears_draft :
  let st0 := with_session "telegram:1" seeded [answers fake_draft] in
  let t1 :=
    _process_message (cfg 20) (inbound "telegram" "1" "Сохранить в памяти")
      st0 in
  let t2 :=
    _process_message (cfg 20) (inbound "telegram" "1" "Отмена") t1.1 in
  (exists resp, t2.2 = Ok (Some resp))
  /\ awaiting (current_session t2.1 "telegram:1") = false
  /\ metadata (current_session t2.1 "telegram:1") !! "memory_draft" = None
  /\ memory_file t2.1 = None.
Proof. vm_compute. split_and!; by eauto. Qed.

Example test_save_memory_editing_replaces_draft :
  let edited := "# Резюме" +:+ PyStr.nl +:+ PyStr.nl +:+ "- вручную" in
  let st0 := with_session "telegram:1" seeded [answers fake_draft] in
  let t1 :=
    _process_message (cfg 20) (inbound "telegram" "1" "Сохранить в памяти")
      st0 in
  let t2 := _process_message (cfg 20) (inbound "telegram" "1" edited) t1.1 in
  metadata (current_session t2.1 "telegram:1") !! "memory_draft"
  = Some (PyStr edited)
  /\ awaiting (current_session t2.1 "telegram:1") = true.
Proof. vm_compute. split_and!; by eauto. Qed.

End Runs.

(** ** Facts about the memory directory *)
Section MemoryDirFacts.

Import PyStr MemoryDir.

Lemma universal_newlines_id s :
  contains cr s = false -> universal_newlines s = s.
Proof.
  induction s as [|c t IH]; [done|]. cbn [contains universal_newlines].
  case_bool_decide as Hc; [done|]. intros Ht.
  assert (is_code 13 c = false) as ->.
  { unfold is_code, code. apply N.eqb_neq. intros Hn. apply Hc.
    rewrite <-(ascii_N_embedding c), Hn. done. }
  by rewrite (IH Ht).
Qed.

Lemma contains_app c a b :
  contains c (a +:+ b) = contains c a || contains c b.
Proof.
  induction a as [|c' t IH]; [done|].
  rewrite PyStrFacts.app_cons. cbn. by case_bool_decide.
Qed.

Lemma app_empty_r (a : string) : a +:+ "" = a.
Proof.
  induction a as [|c t IH]; [done|]. by rewrite PyStrFacts.app_cons, IH.
Qed.

Lemma app_assoc_s (a b c : string) : (a +:+ b) +:+ c = a +:+ (b +:+ c).
Proof.
  induction a as [|x t IH]; [done|]. by rewrite !PyStrFacts.app_cons, IH.
Qed.

Lemma app_not_empty_l c t b : String c t +:+ b <> "".
Proof. by rewrite PyStrFacts.app_cons. Qed.

(** The model of [append_long_term] on the directory agrees with the one
    on the content of MEMORY.md that the turn processor uses. *)
Lemma append_long_term_file fs content :
  append_long_term fs content !! memory_file_name
  = MemoryStore.append_long_term (fs !! memory_file_name) content.
Proof.
  unfold append_long_term, MemoryStore.append_long_term,
    ensure_long_term_exists, MemoryStore.ensure_long_term_exists.
  case_bool_decide; [done|].
  destruct (fs !! memory_file_name) as [old|] eqn:Hold.
  - by rewrite lookup_insert_eq, Hold.
  - by rewrite !lookup_insert_eq.
Qed.

(** X19: [append_long_term] never overwrites: every file of the directory
    keeps the text it had, as the beginning of its text. *)
Theorem append_long_term_keeps_text fs content name old :
  fs !! name = Some old ->
  exists added, append_long_term fs content !! name = Some (old +:+ added).
Proof.
  intros Hold. unfold append_long_term.
  case_bool_decide as Hentry.
  { exists "". by rewrite app_empty_r. }
  unfold ensure_long_term_exists.
  destruct (decide (name = memory_file_name)) as [->|Hname].
  - rewrite Hold, lookup_insert_eq, Hold. by eexists.
  - exists "". rewrite app_empty_r.
    destruct (fs !! memory_file_name);
      by rewrite ?lookup_insert_ne.
Qed.

Lemma append_long_term_keeps_text_witness :
  exists added,
    append_long_term {[ "MEMORY.md" := "# Notes" ]} "  likes tea "
      !! "MEMORY.md"
    = Some ("# Notes" +:+ added).
Proof.
  apply (append_long_term_keeps_text {[ "MEMORY.md" := "# Notes" ]}
           "  likes tea " "MEMORY.md" "# Notes").
  reflexivity.
Defined.

(** X20: an entry that is not blank is written after the separator, trimmed
    and followed by a line feed, behind the old text or, when MEMORY.md is
    missing, behind the template; a blank entry changes nothing and does
    not create the file. *)
Theorem append_long_term_entry fs content :
  (strip content <> "" ->
   append_long_term fs content !! memory_file_name
   = Some (default MemoryStore.template (fs !! memory_file_name)
           +:+ (nl +:+ nl +:+ "---" +:+ nl +:+ nl)
           +:+ strip content +:+ nl))
  /\ (strip content = "" -> append_long_term fs content = fs).
Proof.
  split; intros Hentry.
  - unfold append_long_term, ensure_long_term_exists.
    rewrite bool_decide_false by done.
    destruct (fs !! memory_file_name) as [old|] eqn:Hold.
    + by rewrite lookup_insert_eq, Hold.
    + by rewrite !lookup_insert_eq.
  - unfold append_long_term. by rewrite bool_decide_true.
Qed.

Lemma append_long_term_entry_witness :
  append_long_term ∅ " likes tea " !! memory_file_name
  = Some (MemoryStore.template
          +:+ (nl +:+ nl +:+ "---" +:+ nl +:+ nl) +:+ "likes tea" +:+ nl)
  /\ append_long_term ∅ "   " = ∅.
Proof.
  destruct (append_long_term_entry ∅ " likes tea ") as [Hwrite _].
  destruct (append_long_term_entry ∅ "   ") as [_ Hblank].
  split.
  - apply Hwrite. vm_compute. discriminate.
  - apply Hblank. vm_compute. reflexivity.
Defined.

(** X21: what is written with [write_long_term] is read back by
    [read_long_term] with the line ends of text mode: unchanged when the
    text has no carriage return, and with each carriage return (and the
    line feed after it) read as one line feed otherwise. *)
Theorem long_term_round_trip fs content :
  read_long_term (write_long_term fs content) = universal_newlines content
  /\ (contains cr content = false ->
      read_long_term (write_long_term fs content) = content).
Proof.
  assert (read_long_term (write_long_term fs content)
          = universal_newlines content) as Hread.
  { unfold read_long_term, write_long_term. by rewrite lookup_insert_eq. }
  split; [done|]. intros Hcr. by rewrite Hread, universal_newlines_id.
Qed.

Lemma long_term_round_trip_witness :
  read_long_term (write_long_term ∅ ("a" +:+ nl +:+ "b"))
  = "a" +:+ nl +:+ "b".
Proof.
  destruct (long_term_round_trip ∅ ("a" +:+ nl +:+ "b")) as [_ Hsame].
  apply Hsame. vm_compute. reflexivity.
Defined.

Example long_term_crlf_ex :
  read_long_term (write_long_term ∅ ("a" +:+ String cr nl +:+ "b"))
  = "a" +:+ nl +:+ "b".
Proof. vm_compute. reflexivity. Qed.

(** Text read in text mode has no carriage return. *)
Lemma universal_newlines_no_cr s : contains cr (universal_newlines s) = false.
Proof.
  induction s as [s IH] using PyStrFacts.string_length_ind.
  destruct s as [|c [|c' t]]; [done|..]; cbn [universal_newlines].
  - destruct (is_code 13 c) eqn:Hc; [done|]. cbn.
    case_bool_decide as Hcr; [|done]. by rewrite Hcr in Hc.
  - destruct (is_code 13 c) eqn:Hc.
    + destruct (is_code 10 c') eqn:Hc'.
      * cbn [contains]. case_bool_decide as Hcr.
        { by rewrite Hcr in Hc'. }
        apply IH. cbn. lia.
      * cbn [contains]. rewrite bool_decide_false by done.
        apply (IH (String c' t)). cbn. lia.
    + cbn [contains]. case_bool_decide as Hcr.
      { by rewrite Hcr in Hc. }
      apply (IH (String c' t)). cbn. lia.
Qed.

Lemma universal_newlines_app a b :
  contains cr a = false ->
  universal_newlines (a +:+ b) = a +:+ universal_newlines b.
Proof.
  induction a as [|c t IH]; [done|].
  rewrite !PyStrFacts.app_cons. cbn [contains universal_newlines].
  case_bool_decide as Hc; [done|]. intros Ht.
  assert (is_code 13 c = false) as ->.
  { unfold is_code, code. apply N.eqb_neq. intros Hn. apply Hc.
    rewrite <-(ascii_N_embedding c), Hn. done. }
  by rewrite (IH Ht).
Qed.

Lemma app_eq_empty (a b : string) : a +:+ b = "" -> a = "".
Proof. destruct a; [done|]. by rewrite PyStrFacts.app_cons. Qed.

(** X22: after [append_today] the notes of the day read as the notes that
    were there, a line feed and the new content, or, on a day without notes
    yet, as the header of the day and the new content. *)
Theorem append_today_read today fs content :
  contains cr today = false ->
  read_today today (append_today today fs content)
  = match fs !! get_today_file today with
    | Some _ => read_today today fs +:+ nl
    | None => "# " +:+ today +:+ nl +:+ nl
    end +:+ universal_newlines content.
Proof.
  intros Htoday. unfold read_today, append_today.
  rewrite lookup_insert_eq.
  destruct (fs !! get_today_file today) as [old|].
  - rewrite <-app_assoc_s.
    rewrite universal_newlines_app; [done|].
    by rewrite contains_app, universal_newlines_no_cr.
  - rewrite universal_newlines_app; [by rewrite !app_assoc_s|].
    by rewrite !contains_app, Htoday.
Qed.

Lemma append_today_read_witness :
  read_today "2026-02-01"
    (append_today "2026-02-01" (append_today "2026-02-01" ∅ "met Ann")
       "called Bob")
  = "# 2026-02-01" +:+ nl +:+ nl +:+ "met Ann" +:+ nl +:+ "called Bob".
Proof.
  rewrite (append_today_read "2026-02-01"
             (append_today "2026-02-01" ∅ "met Ann") "called Bob");
    [|vm_compute; reflexivity].
  vm_compute. reflexivity.
Defined.

(** X23: the memory context is empty exactly when both the long-term memory
    and the notes of the day read as empty (missing or empty files). *)
Theorem memory_context_empty today fs :
  get_memory_context today fs = ""
  <-> read_long_term fs = "" /\ read_today today fs = "".
Proof.
  unfold get_memory_context.
  destruct (decide (read_long_term fs = "")) as [Hl|Hl];
    destruct (decide (read_today today fs = "")) as [Ht|Ht];
    rewrite ?(bool_decide_true _ Hl), ?(bool_decide_false _ Hl),
      ?(bool_decide_true _ Ht), ?(bool_decide_false _ Ht); cbn.
  - done.
  - split; [|by intros [_ ?]]. by intros ?%app_eq_empty.
  - split; [|by intros [? _]]. by intros ?%app_eq_empty.
  - split; [|by intros [? _]]. by intros ?%app_eq_empty%app_eq_empty.
Qed.

(** X24: the notes of the day and the long-term memory are kept apart: as
    long as the file of the day is not MEMORY.md, writing one of them does
    not change what is read from the other. *)
Theorem daily_and_long_term_apart today fs content :
  get_today_file today <> memory_file_name ->
  read_long_term (append_today today fs content) = read_long_term fs
  /\ read_today today (append_long_term fs content) = read_today today fs
  /\ read_today today (write_long_term fs content) = read_today today fs.
Proof.
  intros Hname. split_and!.
  - unfold read_long_term, append_today. by rewrite lookup_insert_ne.
  - unfold read_today, append_long_term, ensure_long_term_exists.
    case_bool_decide; [done|].
    destruct (fs !! memory_file_name); by rewrite ?lookup_insert_ne.
  - unfold read_today, write_long_term. by rewrite lookup_insert_ne.
Qed.

Lemma daily_and_long_term_apart_witness :
  read_long_term
    (append_today "2026-02-01" {[ "MEMORY.md" := "# Notes" ]} "met Ann")
  = "# Notes".
Proof.
  destruct (daily_and_long_term_apart "2026-02-01"
              {[ "MEMORY.md" := "# Notes" ]} "met Ann") as [Hlong _].
  - vm_compute. discriminate.
  - rewrite Hlong. vm_compute. reflexivity.
Defined.

End MemoryDirFacts.

(** ** The calls of the agent loop *)
Section LoopTrace.

Context {C : Collaborators}.
Variable cfg : AgentConfig.

(** The calls of the agent loop: each with the tool definitions of the
    registry and the configured model, the first one to the messages the
    loop starts from and in the state it starts in, each but the last
    answered with tool calls, and the last deciding the result. *)
Lemma agent_loop_trace n msgs st :
  exists w new r,
    agent_loop cfg n msgs st =
    ({| sessions := sessions st; memory_file := memory_file st;
        world := w; chat_log := chat_log st ++ new |}, r)
    /\ Forall (loop_call cfg) new
    /\ forallb wants_tools (removelast new) = true
    /\ loop_result_of new r
    /\ (forall c, head new = Some c ->
          call_messages c = msgs
          /\ call_tools c = Some (get_definitions (world st))
          /\ call_result c =
             (provider_chat (world st) msgs
                (Some (get_definitions (world st))) (model cfg)).2).
Proof.
  revert msgs st. induction n as [|n IH]; intros msgs st.
  - exists (world st), [], (Ok None). cbn. unfold ret.
    by rewrite app_nil_r, state_eta.
  - assert (Hcall : forall w r,
              provider_chat (world st) msgs
                (Some (get_definitions (world st))) (model cfg) = (w, r) ->
              loop_call cfg
                (mkChatCall msgs (Some (get_definitions (world st)))
                   (model cfg) r)).
    { intros w r Hc. split; [done|]. exists (world st). cbn. by rewrite Hc. }
    cbn [agent_loop]. unfold bind, definitions, chat. cbn.
    destruct (provider_chat (world st) msgs _ _) as [w [resp|e]] eqn:Hc.
    + destruct (has_tool_calls resp) eqn:Htc.
      * edestruct (run_tools_spec (tool_calls resp)) as (w1 & msgs1 & ->).
        cbn.
        edestruct (IH msgs1)
          as (w2 & new & r & -> & Hcalls & Hall & Hres & _).
        cbn. eexists w2, (_ :: new), r. rewrite <-app_assoc. cbn.
        split; [reflexivity|]. split_and!.
        -- apply Forall_cons. split; [by eapply Hcall|done].
        -- destruct new as [|c' new']; [done|].
           cbn [removelast forallb]. cbn [removelast] in Hall.
           rewrite Hall. unfold wants_tools. cbn. by rewrite Htc.
        -- unfold loop_result_of in *. destruct new as [|c' new'].
           ++ cbn in *. by rewrite Htc.
           ++ done.
        -- by intros c [= <-].
      * eexists w, [_], _. cbn. split; [reflexivity|]. split_and!.
        -- apply Forall_singleton. by eapply Hcall.
        -- done.
        -- unfold loop_result_of. cbn. by rewrite Htc.
        -- by intros c [= <-].
    + eexists w, [_], _. cbn. split; [reflexivity|]. split_and!.
      * apply Forall_singleton. by eapply Hcall.
      * done.
      * done.
      * by intros c [= <-].
Qed.

End LoopTrace.

(** ** More about the turns that run the agent loop *)
Section LoopTurns.

Context {C : Collaborators}.
Variable cfg : AgentConfig.

Ltac use_loop_trace :=
  match goal with
  | |- context [agent_loop _ ?n ?m ?st0] =>
      destruct (agent_loop_trace cfg n m st0)
        as (w & new & r & -> & Hcalls & Hall & Hres & Hfirst)
  end.

(** A message that the memory state machine does not answer goes through
    the normal processing. *)
Lemma process_message_normal msg st :
  let k := session_key msg in
  let s := current_session st k in
  channel msg <> "system" ->
  short_circuits msg s = false ->
  _process_message cfg msg st = normal_turn cfg msg s (touch k st).
Proof.
  intros k s Hsys Hsc. unfold _process_message, bind.
  rewrite bool_decide_false, get_or_create_spec by done. fold k s.
  unfold short_circuits in Hsc. destruct (awaiting s); cbn [andb negb].
  - apply orb_false_elim in Hsc as [Hsc Hed%negb_false_iff].
    apply orb_false_elim in Hsc as [Hsc Hsave].
    apply orb_false_elim in Hsc as [Hcancel Hconf].
    rewrite Hcancel, Hconf, Hsave, Hed. done.
  - by rewrite Hsc.
Qed.

Lemma reply_address_user msg :
  channel msg <> "system" -> reply_address msg = (channel msg, chat_id msg).
Proof. intros Hsys. unfold reply_address. by rewrite bool_decide_false. Qed.

(** A turn that enters the agent loop, with the calls of the loop. *)
Lemma loop_turn_trace msg st :
  enters_loop msg st = true ->
  let k := turn_key msg in
  let s := current_session st k in
  exists w new r,
    Forall (loop_call cfg) new
    /\ forallb wants_tools (removelast new) = true
    /\ loop_result_of new r
    /\ (forall c, head new = Some c -> first_loop_call cfg msg st c)
    /\ _process_message cfg msg st =
       match r with
       | Ok final =>
           let text := or_default final (fallback_of msg) in
           (after st k
              (add_message (add_message s "user" (user_entry msg))
                 "assistant" text)
              (memory_file st) w new,
            Ok (Some (mkOutbound (reply_address msg).1 (reply_address msg).2
                        text)))
       | Raise e => (after st k s (memory_file st) w new, Raise e)
       end.
Proof.
  intros Hloop k s. subst s k.
  destruct (decide (channel msg = "system")) as [Hsys|Hsys].
  - unfold first_loop_call, initial_messages, tools_world.
    unfold _process_message, turn_key, user_entry, reply_address, fallback_of.
    rewrite !bool_decide_true by done.
    unfold _process_system_message, bind, lift.
    destruct (resolve_origin_total (chat_id msg)) as [[c i] Hr].
    rewrite Hr, get_or_create_spec. cbn.
    use_loop_trace. cbn. exists w, new, r. split_and!; try done.
    destruct r as [final|e]; cbn; [|done].
    by rewrite insert_insert_eq.
  - rewrite enters_loop_user in Hloop by done.
    apply negb_true_iff in Hloop.
    rewrite (process_message_normal msg st Hsys Hloop).
    unfold first_loop_call, initial_messages, tools_world.
    unfold turn_key, user_entry, reply_address, fallback_of.
    rewrite !bool_decide_false by done.
    unfold normal_turn, bind, update_tool_contexts. cbn.
    use_loop_trace. cbn. exists w, new, r. split_and!; try done.
    destruct r as [final|e]; cbn; [|done].
    by rewrite insert_insert_eq.
Qed.

(** X10: in a turn that runs the agent loop, every backend call is made with
    the configured model and with the tool definitions that the registry
    gives in the state of the collaborators in which the call is made; the
    first call is made to the messages built from the history of the
    session, with the definitions of the registry as it is once the tool
    contexts are set; and every call but the last was answered with tool
    calls: after an answer without tool calls, or after a failure, the
    backend is not called again. *)
Theorem loop_stops_at_first_answer msg st new :
  enters_loop msg st = true ->
  chat_log (_process_message cfg msg st).1 = chat_log st ++ new ->
  Forall (loop_call cfg) new
  /\ (forall c, head new = Some c -> first_loop_call cfg msg st c)
  /\ forallb wants_tools (removelast new) = true.
Proof.
  intros Hloop Hlog.
  destruct (loop_turn_trace msg st Hloop)
    as (w & new' & r & Hcalls & Hall & _ & Hfirst & Heq).
  rewrite Heq in Hlog.
  destruct r; cbn in Hlog; apply app_inv_head in Hlog as ->; done.
Qed.

(** X11: the reply of a turn that runs the agent loop is the content of the
    response without tool calls, as it is, also when it is the empty
    string; when that response has no content at all, the reply is the
    fallback text, although the iterations were not used up. *)
Theorem final_answer_is_reply msg st new c resp :
  enters_loop msg st = true ->
  chat_log (_process_message cfg msg st).1 = chat_log st ++ new ->
  last new = Some c ->
  call_result c = Ok resp ->
  has_tool_calls resp = false ->
  (_process_message cfg msg st).2
  = Ok (Some (mkOutbound (reply_address msg).1 (reply_address msg).2
                (match resp_content resp with
                 | Some text => text
                 | None => fallback_of msg
                 end))).
Proof.
  intros Hloop Hlog Hlast Hc Htc.
  destruct (loop_turn_trace msg st Hloop)
    as (w & new' & r & _ & _ & Hres & _ & Heq).
  rewrite Heq in Hlog |- *.
  assert (new' = new) as ->.
  { destruct r; cbn in Hlog; by apply app_inv_head in Hlog. }
  unfold loop_result_of in Hres. rewrite Hlast, Hc, Htc in Hres.
  subst r. cbn. by destruct (resp_content resp).
Qed.

(** X12: a turn that fails with the error of a backend call commits
    nothing to the session store: every session has the history and the
    metadata it had before the turn. *)
Theorem raising_turn_commits_nothing msg st st' e :
  _process_message cfg msg st = (st', Raise e) ->
  forall k, current_session st' k = current_session st k.
Proof.
  intros Heq.
  assert (Hsame : forall k f w new,
    forall k', current_session
                 (after st k (current_session st k) f w new) k'
               = current_session st k').
  { intros k f w new k'. unfold current_session at 1, after. cbn.
    destruct (decide (k = k')) as [->|Hk].
    - by rewrite lookup_insert_eq.
    - by rewrite lookup_insert_ne. }
  destruct (enters_loop msg st) eqn:Hloop.
  - destruct (loop_turn_trace msg st Hloop)
      as (w & new & r & _ & _ & _ & _ & Heq').
    rewrite Heq' in Heq. destruct r as [final|e']; [done|].
    injection Heq as <- <-. apply Hsame.
  - pose proof (process_message_outcome cfg msg st) as H.
    rewrite Heq in H. cbn [fst snd] in H.
    unfold enters_loop in Hloop.
    apply orb_false_elim in Hloop as [Hsys%bool_decide_eq_false Hsc].
    apply negb_false_iff in Hsc.
    inversion H; subst; first [congruence | apply Hsame].
Qed.

(** X13: a turn that runs the agent loop does not touch the memory state
    machine: the metadata of every session is as it was. *)
Theorem loop_turn_keeps_metadata msg st :
  enters_loop msg st = true ->
  forall k,
    metadata (current_session (_process_message cfg msg st).1 k)
    = metadata (current_session st k).
Proof.
  intros Hloop.
  destruct (loop_turn_trace msg st Hloop)
    as (w & new & r & _ & _ & _ & _ & ->).
  assert (Hmeta : forall s' f,
    metadata s' = metadata (current_session st (turn_key msg)) ->
    forall k, metadata (current_session (after st (turn_key msg) s' f w new) k)
              = metadata (current_session st k)).
  { intros s' f Hs' k. unfold current_session at 1, after. cbn.
    destruct (decide (turn_key msg = k)) as [<-|Hk].
    - by rewrite lookup_insert_eq.
    - by rewrite lookup_insert_ne. }
  destruct r; cbn; by apply Hmeta.
Qed.

End LoopTurns.

(** ** The transitions of the memory state machine *)
Section MemoryMachine.

Context {C : Collaborators}.
Variable cfg : AgentConfig.

(** Closes the cases of the agent loop for a message that the memory state
    machine answers. *)
Ltac not_loop_case :=
  try match goal with
      | Hsc : short_circuits _ _ = false |- _ =>
          first [ rewrite short_circuits_cancel in Hsc by done
                | rewrite short_circuits_confirm in Hsc by done
                | rewrite short_circuits_edit in Hsc by done
                | rewrite short_circuits_save in Hsc by done ];
          discriminate Hsc
      end.

Lemma cancel_step msg st :
  let k := session_key msg in
  let s := current_session st k in
  channel msg <> "system" ->
  awaiting s = true ->
  is_cancel_memory msg = true ->
  _process_message cfg msg st =
  (after st k
     (pop_meta (pop_meta s "awaiting_memory_confirm") "memory_draft")
     (memory_file st) (world st) [],
   to_sender msg cancel_reply).
Proof.
  intros k s Hsys Haw Hcancel. subst s k. turn_cases cfg msg st H.
  destruct H; try congruence; not_loop_case; done.
Qed.

Lemma edit_step msg st :
  let k := session_key msg in
  let s := current_session st k in
  channel msg <> "system" ->
  awaiting s = true ->
  is_cancel_memory msg = false ->
  is_confirm_save msg || is_save_memory msg = false ->
  PyStr.strip (content msg) <> "" ->
  _process_message cfg msg st =
  (after st k (set_meta s "memory_draft" (PyStr (PyStr.strip (content msg))))
     (memory_file st) (world st) [],
   to_sender msg (edited_reply (PyStr.strip (content msg)))).
Proof.
  intros k s Hsys Haw Hcancel Hconf Hed. subst s k. turn_cases cfg msg st H.
  destruct H; try congruence; not_loop_case; by subst.
Qed.

Lemma saved_step msg st :
  let k := session_key msg in
  let s := current_session st k in
  let draft := PyStr.strip (get_str_or_empty (metadata s) "memory_draft") in
  channel msg <> "system" ->
  awaiting s = true ->
  is_confirm_save msg || is_save_memory msg = true ->
  draft <> "" ->
  _process_message cfg msg st =
  (after st k
     (pop_meta (pop_meta s "awaiting_memory_confirm") "memory_draft")
     (MemoryStore.append_long_term (memory_file st) draft) (world st) [],
   to_sender msg saved_reply).
Proof.
  intros k s draft Hsys Haw Hconf Hdraft. subst draft s k.
  pose proof (cancel_not_confirm msg Hconf) as Hcancel.
  turn_cases cfg msg st H.
  destruct H; try congruence; not_loop_case; by subst.
Qed.

Lemma draft_step msg st w resp :
  let k := session_key msg in
  let s := current_session st k in
  let transcript := PyStr.join PyStr.nl (transcript_lines (messages s)) in
  channel msg <> "system" ->
  awaiting s = false ->
  is_save_memory msg = true ->
  PyStr.strip transcript <> "" ->
  provider_chat (world st) (draft_request transcript) None (model cfg)
  = (w, Ok resp) ->
  _process_message cfg msg st =
  (after st k
     (set_meta (set_meta s "awaiting_memory_confirm" (PyBool true))
        "memory_draft" (PyStr (draft_of_response resp)))
     (memory_file st) w
     [mkChatCall (draft_request transcript) None (model cfg) (Ok resp)],
   to_sender msg (draft_reply (draft_of_response resp))).
Proof.
  intros k s transcript Hsys Haw Hsave Ht Hchat. subst transcript s k.
  turn_cases cfg msg st H.
  destruct H as [| | | | | w' resp' ? ? ? ? Hchat' | | | | |];
    try congruence; not_loop_case;
    rewrite Hchat in Hchat'; by injection Hchat' as <- <-.
Qed.

(** The confirmation of a stored draft that is trimmed and not empty. *)
Lemma confirm_stored_step msg st d :
  let k := session_key msg in
  let s := current_session st k in
  channel msg <> "system" ->
  awaiting s = true ->
  is_confirm_save msg || is_save_memory msg = true ->
  metadata s !! "memory_draft" = Some (PyStr d) ->
  PyStr.strip d = d ->
  d <> "" ->
  _process_message cfg msg st =
  (after st k
     (pop_meta (pop_meta s "awaiting_memory_confirm") "memory_draft")
     (Some (default MemoryStore.template (memory_file st)
            +:+ (PyStr.nl +:+ PyStr.nl +:+ "---" +:+ PyStr.nl +:+ PyStr.nl)
            +:+ d +:+ PyStr.nl))
     (world st) [],
   to_sender msg saved_reply).
Proof.
  intros k s Hsys Haw Hconf Hd Hstrip Hne. subst s k.
  assert (Hdraft : PyStr.strip
            (get_str_or_empty
               (metadata (current_session st (session_key msg)))
               "memory_draft") = d).
  { unfold get_str_or_empty. rewrite Hd. unfold truthy, py_str.
    by rewrite bool_decide_false. }
  rewrite saved_step; [|done..|by rewrite Hdraft].
  rewrite Hdraft, <-Hstrip at 1.
  rewrite append_long_term_draft by (by rewrite Hstrip).
  by rewrite Hstrip.
Qed.

(** X1: in state DRAFTING the cancel phrase removes flag and draft and
    answers; the backend is not called, MEMORY.md is not written, and the
    history and the other metadata stay. *)
Theorem cancel_transition msg st :
  let k := session_key msg in
  let s := current_session st k in
  channel msg <> "system" ->
  awaiting s = true ->
  is_cancel_memory msg = true ->
  let st' := (_process_message cfg msg st).1 in
  (_process_message cfg msg st).2
  = Ok (Some (mkOutbound (channel msg) (chat_id msg) cancel_reply))
  /\ chat_log st' = chat_log st
  /\ world st' = world st
  /\ memory_file st' = memory_file st
  /\ messages (current_session st' k) = messages s
  /\ metadata (current_session st' k)
     = delete "memory_draft" (delete "awaiting_memory_confirm" (metadata s)).
Proof.
  intros k s Hsys Haw Hcancel. cbn zeta.
  rewrite (cancel_step msg st Hsys Haw Hcancel). cbn [fst snd].
  rewrite current_session_after. cbn. by rewrite app_nil_r.
Qed.

(** X2: in state DRAFTING a text that is no trigger phrase and is not blank
    replaces the draft by the trimmed text and leaves the flag set; the
    reply shows the new draft; the backend is not called, MEMORY.md is not
    written and the history stays. *)
Theorem edit_transition msg st :
  let k := session_key msg in
  let s := current_session st k in
  channel msg <> "system" ->
  awaiting s = true ->
  is_cancel_memory msg = false ->
  is_confirm_save msg || is_save_memory msg = false ->
  PyStr.strip (content msg) <> "" ->
  let st' := (_process_message cfg msg st).1 in
  (_process_message cfg msg st).2
  = Ok (Some (mkOutbound (channel msg) (chat_id msg)
                (edited_reply (PyStr.strip (content msg)))))
  /\ chat_log st' = chat_log st
  /\ memory_file st' = memory_file st
  /\ messages (current_session st' k) = messages s
  /\ metadata (current_session st' k)
     = <["memory_draft" := PyStr (PyStr.strip (content msg))]> (metadata s)
  /\ awaiting (current_session st' k) = true.
Proof.
  intros k s Hsys Haw Hcancel Hconf Hed. cbn zeta.
  rewrite (edit_step msg st Hsys Haw Hcancel Hconf Hed). cbn [fst snd].
  rewrite current_session_after. cbn. rewrite app_nil_r.
  split_and!; try done.
  unfold awaiting, get_truthy in *. cbn. by rewrite lookup_insert_ne.
Qed.

(** X3: a request to save with no draft in flight and a transcript that is
    not blank calls the backend once, without tools, with the summary
    prompt; the answer, trimmed, is stored as the draft, or the placeholder
    when the answer is missing or blank; the flag is set, the reply shows
    the draft, and the history and MEMORY.md stay. *)
Theorem draft_creation msg st w resp :
  let k := session_key msg in
  let s := current_session st k in
  let transcript := PyStr.join PyStr.nl (transcript_lines (messages s)) in
  channel msg <> "system" ->
  awaiting s = false ->
  is_save_memory msg = true ->
  PyStr.strip transcript <> "" ->
  provider_chat (world st) (draft_request transcript) None (model cfg)
  = (w, Ok resp) ->
  let st' := (_process_message cfg msg st).1 in
  let draft :=
    if bool_decide (PyStr.strip (or_default (resp_content resp) "") = "")
    then draft_placeholder
    else PyStr.strip (or_default (resp_content resp) "") in
  (_process_message cfg msg st).2
  = Ok (Some (mkOutbound (channel msg) (chat_id msg) (draft_reply draft)))
  /\ chat_log st'
     = chat_log st
       ++ [mkChatCall (draft_request transcript) None (model cfg) (Ok resp)]
  /\ memory_file st' = memory_file st
  /\ messages (current_session st' k) = messages s
  /\ metadata (current_session st' k)
     = <["memory_draft" := PyStr draft]>
         (<["awaiting_memory_confirm" := PyBool true]> (metadata s))
  /\ draft <> "".
Proof.
  intros k s transcript Hsys Haw Hsave Ht Hchat. cbn zeta.
  rewrite (draft_step msg st w resp Hsys Haw Hsave Ht Hchat). cbn [fst snd].
  rewrite current_session_after. cbn. split_and!; try done.
  apply (draft_of_response_ok resp).
Qed.

Lemma absent_keys_restored (m : gmap string PyVal) x y :
  m !! "awaiting_memory_confirm" = None ->
  m !! "memory_draft" = None ->
  delete "memory_draft"
    (delete "awaiting_memory_confirm"
       (<["memory_draft" := x]> (<["awaiting_memory_confirm" := y]> m)))
  = m.
Proof.
  intros Ha Hd. apply map_eq. intros i.
  destruct (decide (i = "memory_draft")) as [->|Hi1].
  { by rewrite lookup_delete_eq, Hd. }
  rewrite lookup_delete_ne by done.
  destruct (decide (i = "awaiting_memory_confirm")) as [->|Hi2].
  { by rewrite lookup_delete_eq, Ha. }
  by rewrite lookup_delete_ne, !lookup_insert_ne.
Qed.

Lemma session_eta (s : Session) :
  {| messages := messages s; metadata := metadata s |} = s.
Proof. by destruct s. Qed.

Lemma awaiting_absent s :
  metadata s !! "awaiting_memory_confirm" = None -> awaiting s = false.
Proof. unfold awaiting, get_truthy. by intros ->. Qed.

Lemma awaiting_drafted s d :
  awaiting
    (set_meta (set_meta s "awaiting_memory_confirm" (PyBool true))
       "memory_draft" d) = true.
Proof.
  unfold awaiting, get_truthy. cbn.
  by rewrite lookup_insert_ne, lookup_insert_eq.
Qed.

(** X6: a request to save followed by the cancel phrase leaves the session
    exactly as it was before the request, history and metadata, and
    MEMORY.md untouched; the backend was called once, for the draft. *)
Theorem draft_then_cancel msg1 msg2 st w resp :
  let k := session_key msg1 in
  let s := current_session st k in
  let transcript := PyStr.join PyStr.nl (transcript_lines (messages s)) in
  channel msg1 <> "system" ->
  metadata s !! "awaiting_memory_confirm" = None ->
  metadata s !! "memory_draft" = None ->
  is_save_memory msg1 = true ->
  PyStr.strip transcript <> "" ->
  provider_chat (world st) (draft_request transcript) None (model cfg)
  = (w, Ok resp) ->
  channel msg2 <> "system" ->
  session_key msg2 = k ->
  is_cancel_memory msg2 = true ->
  let st1 := (_process_message cfg msg1 st).1 in
  let st2 := (_process_message cfg msg2 st1).1 in
  current_session st2 k = s
  /\ memory_file st2 = memory_file st
  /\ chat_log st2
     = chat_log st
       ++ [mkChatCall (draft_request transcript) None (model cfg) (Ok resp)].
Proof.
  intros k s transcript Hsys1 Ha Hd Hsave Ht Hchat Hsys2 Hk Hcancel.
  cbn zeta.
  rewrite (draft_step msg1 st w resp Hsys1 (awaiting_absent _ Ha) Hsave Ht
             Hchat).
  cbn [fst]. fold k s transcript.
  rewrite cancel_step; [|done| |done].
  2: { rewrite Hk, current_session_after. apply awaiting_drafted. }
  cbn [fst]. rewrite Hk, !current_session_after. cbn.
  unfold pop_meta, set_meta. cbn [messages metadata].
  rewrite app_nil_r, (absent_keys_restored _ _ _ Ha Hd), session_eta. done.
Qed.

(** X7: in state DRAFTING an edit followed by the confirm phrase (or the
    request-save phrase) appends the edited text, trimmed, to MEMORY.md, and
    not the draft that was there before; flag and draft are gone, and the
    backend is not called. *)
Theorem edit_then_confirm msg1 msg2 st :
  let k := session_key msg1 in
  let s := current_session st k in
  channel msg1 <> "system" ->
  awaiting s = true ->
  is_cancel_memory msg1 = false ->
  is_confirm_save msg1 || is_save_memory msg1 = false ->
  PyStr.strip (content msg1) <> "" ->
  channel msg2 <> "system" ->
  session_key msg2 = k ->
  is_confirm_save msg2 || is_save_memory msg2 = true ->
  let st1 := (_process_message cfg msg1 st).1 in
  let st2 := (_process_message cfg msg2 st1).1 in
  (_process_message cfg msg2 st1).2
  = Ok (Some (mkOutbound (channel msg2) (chat_id msg2) saved_reply))
  /\ memory_file st2
     = Some (default MemoryStore.template (memory_file st)
             +:+ (PyStr.nl +:+ PyStr.nl +:+ "---" +:+ PyStr.nl +:+ PyStr.nl)
             +:+ PyStr.strip (content msg1) +:+ PyStr.nl)
  /\ chat_log st2 = chat_log st
  /\ metadata (current_session st2 k) !! "awaiting_memory_confirm" = None
  /\ metadata (current_session st2 k) !! "memory_draft" = None.
Proof.
  intros k s Hsys1 Haw Hcancel Hconf Hed Hsys2 Hk Hconf2. cbn zeta.
  rewrite (edit_step msg1 st Hsys1 Haw Hcancel Hconf Hed).
  cbn [fst]. fold k s.
  rewrite (confirm_stored_step msg2 _ (PyStr.strip (content msg1)));
    try done.
  - cbn [fst snd]. rewrite Hk, !current_session_after. cbn.
    rewrite !app_nil_r, lookup_delete_eq, lookup_delete_ne,
      lookup_delete_eq by done.
    done.
  - rewrite Hk, current_session_after.
    unfold awaiting, get_truthy in *. cbn. by rewrite lookup_insert_ne.
  - rewrite Hk, current_session_after. cbn. by rewrite lookup_insert_eq.
  - apply PyStrFacts.strip_idemp.
Qed.

(** X8: a request to save followed by the confirm phrase appends the draft
    of the backend to MEMORY.md, behind the old text or the template, and
    leaves the session exactly as it was before the request; the backend
    was called once. *)
Theorem draft_then_confirm msg1 msg2 st w resp :
  let k := session_key msg1 in
  let s := current_session st k in
  let transcript := PyStr.join PyStr.nl (transcript_lines (messages s)) in
  channel msg1 <> "system" ->
  metadata s !! "awaiting_memory_confirm" = None ->
  metadata s !! "memory_draft" = None ->
  is_save_memory msg1 = true ->
  PyStr.strip transcript <> "" ->
  provider_chat (world st) (draft_request transcript) None (model cfg)
  = (w, Ok resp) ->
  channel msg2 <> "system" ->
  session_key msg2 = k ->
  is_confirm_save msg2 || is_save_memory msg2 = true ->
  let st1 := (_process_message cfg msg1 st).1 in
  let st2 := (_process_message cfg msg2 st1).1 in
  memory_file st2
  = Some (default MemoryStore.template (memory_file st)
          +:+ (PyStr.nl +:+ PyStr.nl +:+ "---" +:+ PyStr.nl +:+ PyStr.nl)
          +:+ draft_of_response resp +:+ PyStr.nl)
  /\ current_session st2 k = s
  /\ chat_log st2
     = chat_log st
       ++ [mkChatCall (draft_request transcript) None (model cfg) (Ok resp)].
Proof.
  intros k s transcript Hsys1 Ha Hd Hsave Ht Hchat Hsys2 Hk Hconf.
  cbn zeta.
  rewrite (draft_step msg1 st w resp Hsys1 (awaiting_absent _ Ha) Hsave Ht
             Hchat).
  cbn [fst]. fold k s transcript.
  destruct (draft_of_response_ok resp) as [Hstrip Hne].
  rewrite (confirm_stored_step msg2 _ (draft_of_response resp)); try done.
  - cbn [fst]. rewrite Hk, !current_session_after. cbn.
    unfold pop_meta, set_meta. cbn [messages metadata].
    rewrite app_nil_r, (absent_keys_restored _ _ _ Ha Hd), session_eta. done.
  - rewrite Hk, current_session_after. apply awaiting_drafted.
  - rewrite Hk, current_session_after. cbn. by rewrite lookup_insert_eq.
Qed.

End MemoryMachine.

(** ** The transcript and the trigger phrases *)
Section Transcript.

Context {C : Collaborators}.
Variable cfg : AgentConfig.

Import PyStr.

Lemma strip_empty_iff s : strip s = "" <-> lstrip s = "".
Proof.
  unfold strip. split.
  - destruct (lstrip s) as [|c t] eqn:Hl; [done|].
    rewrite PyStrFacts.rstrip_unfold.
    destruct (blank (String c t)) eqn:Hb; [|done].
    intros _. apply PyStrFacts.blank_spec in Hb.
    rewrite <-Hl, PyStrFacts.lstrip_idemp in Hb. congruence.
  - by intros ->.
Qed.

Lemma ws1_not_colon c : ws1 c = true -> c <> ":"%char.
Proof. by intros H ->. Qed.

Lemma ws2_not_colon c1 c2 :
  ws2 c1 c2 = true -> c1 <> ":"%char /\ c2 <> ":"%char.
Proof.
  intros H. split; intros ->; [done|].
  unfold ws2, is_code, code in H. cbn in H.
  by rewrite ?andb_false_r in H.
Qed.

Lemma ws3_not_colon c1 c2 c3 :
  ws3 c1 c2 c3 = true ->
  c1 <> ":"%char /\ c2 <> ":"%char /\ c3 <> ":"%char.
Proof.
  intros H. split_and!; intros ->; [done|..];
    unfold ws3, is_code, in_range, code in H; cbn in H;
    by rewrite ?andb_false_r, ?orb_false_r in H.
Qed.

(** White space has no colon. *)
Lemma lstrip_empty_no_colon s : lstrip s = "" -> contains ":" s = false.
Proof.
  induction s as [s IH] using PyStrFacts.string_length_ind.
  rewrite PyStrFacts.lstrip_unfold.
  destruct s as [|c1 [|c2 [|c3 t]]]; [done|..].
  - destruct (ws1 c1) eqn:E1; [|done]. intros _. cbn.
    by rewrite bool_decide_false by by apply ws1_not_colon.
  - destruct (ws1 c1) eqn:E1.
    { intros Ht. cbn [contains].
      rewrite bool_decide_false by by apply ws1_not_colon.
      apply (IH (String c2 "")); [cbn; lia|done]. }
    destruct (ws2 c1 c2) eqn:E2; [|done]. intros _.
    destruct (ws2_not_colon _ _ E2). cbn. by rewrite !bool_decide_false.
  - destruct (ws1 c1) eqn:E1.
    { intros Ht. cbn [contains].
      rewrite bool_decide_false by by apply ws1_not_colon.
      apply (IH (String c2 (String c3 t))); [cbn; lia|done]. }
    destruct (ws2 c1 c2) eqn:E2.
    { intros Ht. destruct (ws2_not_colon _ _ E2). cbn [contains].
      rewrite !bool_decide_false by done.
      apply (IH (String c3 t)); [cbn; lia|done]. }
    destruct (ws3 c1 c2 c3) eqn:E3; [|done]. intros Ht.
    destruct (ws3_not_colon _ _ _ E3) as (? & ? & ?). cbn [contains].
    rewrite !bool_decide_false by done.
    apply (IH t); [cbn; lia|done].
Qed.

Lemma transcript_line_colon m line :
  transcript_line m = Some line -> contains ":" line = true.
Proof.
  unfold transcript_line. repeat case_bool_decide; try done;
    intros [= <-]; rewrite !contains_app.
  - done.
  - done.
  - by rewrite orb_true_r.
Qed.

Lemma transcript_line_none m :
  transcript_line m = None <-> blank_entry m.
Proof.
  unfold transcript_line, blank_entry. by repeat case_bool_decide.
Qed.

Lemma transcript_lines_nil l :
  transcript_lines l = [] <-> Forall blank_entry l.
Proof.
  unfold transcript_lines. induction l as [|m l IH]; cbn.
  - split; [by constructor|done].
  - rewrite Forall_cons, <-IH, <-transcript_line_none.
    destruct (transcript_line m); split; try done; by intros [].
Qed.

Lemma transcript_lines_colon l :
  Forall (fun line => contains ":" line = true) (transcript_lines l).
Proof.
  unfold transcript_lines. induction l as [|m l IH]; cbn; [done|].
  destruct (transcript_line m) as [line|] eqn:Hm; [|done].
  constructor; [by eapply transcript_line_colon|done].
Qed.

(** The transcript is blank exactly when every entry of the history is. *)
Lemma blank_transcript_iff l :
  strip (join nl (transcript_lines l)) = "" <-> Forall blank_entry l.
Proof.
  rewrite <-transcript_lines_nil. split; [|by intros ->].
  pose proof (transcript_lines_colon l) as Hcolon.
  destruct (transcript_lines l) as [|line rest]; [done|].
  intros Hblank%strip_empty_iff%lstrip_empty_no_colon.
  apply Forall_cons in Hcolon as [Hline _].
  destruct rest; cbn in Hblank.
  - by rewrite Hline in Hblank.
  - by rewrite contains_app, Hline in Hblank.
Qed.

(** X4: a request to save with no draft in flight is answered that there is
    nothing to save, without a call to the backend, exactly when every
    entry of the history is blank after trimming (an empty history
    included); otherwise the backend is called once, without tools, for the
    draft. *)
Theorem save_request_and_history msg st :
  let k := session_key msg in
  let s := current_session st k in
  channel msg <> "system" ->
  awaiting s = false ->
  is_save_memory msg = true ->
  let st' := (_process_message cfg msg st).1 in
  (Forall blank_entry (messages s) ->
   (_process_message cfg msg st).2
   = Ok (Some (mkOutbound (channel msg) (chat_id msg) nothing_to_save_reply))
   /\ chat_log st' = chat_log st)
  /\ (~ Forall blank_entry (messages s) ->
      exists c,
        chat_log st' = chat_log st ++ [c]
        /\ call_tools c = None
        /\ call_messages c
           = draft_request (join nl (transcript_lines (messages s)))).
Proof.
  intros k s Hsys Haw Hsave. subst s k. cbn zeta.
  rewrite <-blank_transcript_iff.
  turn_cases cfg msg st H.
  destruct H as [| | | | | | | ? ? ? ? Hsc | ? ? ? ? Hsc | |];
    try congruence;
    try (by rewrite short_circuits_save in Hsc);
    cbn; rewrite ?app_nil_r; split; intros Ht; try done;
    by eexists.
Qed.

(** X5: the three sets of trigger phrases do not overlap: an input is at
    most one of cancel, confirm and request to save, whatever its case and
    the white space around it. *)
Theorem triggers_exclusive msg :
  (is_cancel_memory msg = true ->
   is_confirm_save msg = false /\ is_save_memory msg = false)
  /\ (is_confirm_save msg = true -> is_save_memory msg = false).
Proof.
  split.
  - intros Hcancel.
    destruct (is_confirm_save msg || is_save_memory msg) eqn:Hconf.
    + by rewrite (cancel_not_confirm msg Hconf) in Hcancel.
    + by apply orb_false_elim in Hconf.
  - unfold is_confirm_save, is_save_memory, str_in.
    intros Hc%bool_decide_eq_true. apply bool_decide_eq_false. intros Hs.
    repeat (apply elem_of_cons in Hc as [Hc|Hc];
            [rewrite Hc in Hs;
             repeat (apply elem_of_cons in Hs as [Hs|Hs]; [discriminate Hs|]);
             by apply elem_of_nil in Hs|]).
    by apply elem_of_nil in Hc.
Qed.

(** X14: origin resolution never raises, and the session of a system message
    is the one whose key is the chat_id itself when the chat_id has a
    colon, and [cli:] followed by the chat_id otherwise. *)
Theorem system_session_key chat_id :
  exists origin_channel origin_chat_id,
    resolve_origin chat_id = Ok (origin_channel, origin_chat_id)
    /\ origin_channel +:+ ":" +:+ origin_chat_id
       = if contains ":" chat_id then chat_id else "cli:" +:+ chat_id.
Proof.
  destruct (resolve_origin_total chat_id) as [[c i] Hr].
  exists c, i. split; [done|].
  destruct (resolve_origin_cases chat_id c i Hr)
    as [[-> Hc] | (-> & -> & ->)]; [|done].
  by rewrite contains_app_colon.
Qed.

(** X9: a turn in which no tool is executed (the memory state machine
    answers it, or no response of the backend asks for a tool) changes
    MEMORY.md only in state DRAFTING, on the confirm or the request-save
    phrase, with a draft that is not empty after trimming; the new content
    is then the one [append_long_term] gives for this draft. *)
Theorem memory_written_only_on_confirm msg st :
  let k := session_key msg in
  let s := current_session st k in
  let draft := strip (get_str_or_empty (metadata s) "memory_draft") in
  no_tool_ran cfg msg st ->
  memory_file (_process_message cfg msg st).1 <> memory_file st ->
  channel msg <> "system"
  /\ awaiting s = true
  /\ is_confirm_save msg || is_save_memory msg = true
  /\ draft <> ""
  /\ memory_file (_process_message cfg msg st).1
     = MemoryStore.append_long_term (memory_file st) draft.
Proof.
  intros k s draft _. subst draft s k. turn_cases cfg msg st H.
  destruct H; cbn; intros Hmem; try done. by subst.
Qed.

End Transcript.

(** ** The run loop and the direct entry point *)
Section RunLoopFacts.

Context {C : Collaborators}.
Variable cfg : AgentConfig.

(** X15: for every delivered message the run loop publishes exactly one
    message: the reply of the turn, addressed as the turn addresses it, or,
    when the turn raised, the apology with the text of the error, addressed
    to the channel and chat_id of the message as they are. *)
Theorem run_iteration_publishes_one msg rs :
  exists o,
    published (run_iteration cfg msg rs) = published rs ++ [o]
    /\ agent (run_iteration cfg msg rs)
       = (_process_message cfg msg (agent rs)).1
    /\ match (_process_message cfg msg (agent rs)).2 with
       | Ok r => r = Some o /\ (out_channel o, out_chat_id o) = reply_address msg
       | Raise e =>
           o = mkOutbound (channel msg) (chat_id msg)
                 ("Sorry, I encountered an error: " +:+ e)
       end.
Proof.
  unfold run_iteration.
  pose proof (process_message_outcome cfg msg (agent rs)) as H.
  destruct (_process_message cfg msg (agent rs)) as [st' r].
  cbn [fst snd] in H.
  destruct H as
    [Hsys | Hsys | ? Hsys | ? Hsys | Hsys | ? ? Hsys | ? ? Hsys | ? ? ? Hsys
    | ? ? ? Hsys | c i ? ? ? Hsys Hr | c i ? ? ? Hsys Hr];
    cbn; eexists; (split; [reflexivity|]); (split; [reflexivity|]);
    try reflexivity;
    (split; [reflexivity|]);
    unfold reply_address;
    rewrite ?(bool_decide_false _ Hsys), ?(bool_decide_true _ Hsys), ?Hr;
    reflexivity.
Qed.

Lemma run_iteration_publishes_one_aux msg rs :
  exists o,
    published (run_iteration cfg msg rs) = published rs ++ [o]
    /\ sent_for msg o.
Proof.
  unfold run_iteration, sent_for.
  pose proof (process_message_outcome cfg msg (agent rs)) as H.
  destruct (_process_message cfg msg (agent rs)) as [st' r].
  cbn [fst snd] in H.
  destruct H as
    [Hsys | Hsys | ? Hsys | ? Hsys | Hsys | ? ? Hsys | ? ? Hsys | ? ? ? Hsys
    | ? ? ? Hsys | c i ? ? ? Hsys Hr | c i ? ? ? Hsys Hr];
    cbn; eexists; (split; [reflexivity|]);
    first [ by right; eexists
          | left; unfold reply_address;
            rewrite ?(bool_decide_false _ Hsys), ?(bool_decide_true _ Hsys),
              ?Hr; reflexivity ].
Qed.

(** X16: over a run, the run loop itself hands to [publish_outbound] exactly
    one message for every delivered message, in the order of delivery, each
    the reply of that message's turn, addressed as the turn addresses it,
    or the apology for it; what was handed over is never taken back, and a
    time-out hands over nothing. What a tool publishes on the bus during a
    turn is not in this list. *)
Theorem run_publishes_per_delivery deliveries rs :
  exists outs,
    published (run cfg deliveries rs) = published rs ++ outs
    /\ Forall2 sent_for (delivered deliveries) outs.
Proof.
  revert rs. induction deliveries as [|[msg|] rest IH]; intros rs; cbn.
  - exists []. by rewrite app_nil_r.
  - destruct (IH (run_iteration cfg msg rs)) as (outs & -> & Hall).
    destruct (run_iteration_publishes_one_aux msg rs) as (o & -> & Ho).
    exists (o :: outs). rewrite <-app_assoc. cbn. split; [done|].
    by apply Forall2_cons.
  - apply IH.
Qed.

(** X17: when the turn of a system message raises, the apology goes to the
    channel [system] and to the chat_id of the system message as it is, and
    not to the origin that a reply of the turn is addressed to. *)
Theorem failed_system_turn_apology msg rs e :
  channel msg = "system" ->
  (_process_message cfg msg (agent rs)).2 = Raise e ->
  last (published (run_iteration cfg msg rs))
  = Some (mkOutbound "system" (chat_id msg)
            ("Sorry, I encountered an error: " +:+ e))
  /\ reply_address msg <> ("system", chat_id msg).
Proof.
  intros Hsys Hraise. split.
  - unfold run_iteration.
    destruct (_process_message cfg msg (agent rs)) as [st' [r|e']];
      [done|]. cbn in Hraise. injection Hraise as ->. cbn.
    rewrite last_snoc. unfold error_message. by rewrite Hsys.
  - unfold reply_address. rewrite bool_decide_true by done.
    destruct (resolve_origin_total (chat_id msg)) as [[c i] Hr]. rewrite Hr.
    destruct (resolve_origin_cases _ c i Hr) as [[Hid _] | (-> & _)];
      [|done].
    intros [= _ Hi]. apply (f_equal String.length) in Hid.
    rewrite Hi, !length_app in Hid. cbn in Hid. lia.
Qed.

(** X18: [process_direct] works on the session [cli:direct] whatever its
    [session_key] argument is: no other session is touched, and when the
    agent loop ran and the call returns, the history of [cli:direct] has
    grown by the content and by the text returned. *)
Theorem process_direct_uses_cli_direct content key st :
  let msg := mkInbound "cli" "user" "direct" content [] in
  let st' := (process_direct cfg content key st).1 in
  (forall k', "cli:direct" <> k' -> sessions st' !! k' = sessions st !! k')
  /\ (forall text,
        (process_direct cfg content key st).2 = Ok text ->
        enters_loop msg st = true ->
        messages (current_session st' "cli:direct")
        = messages (current_session st "cli:direct")
          ++ [mkMessage "user" content; mkMessage "assistant" text]).
Proof.
  intros msg. cbn zeta. unfold process_direct. fold msg.
  assert (Hsys : channel msg <> "system") by done.
  split.
  - intros k' Hk.
    pose proof (process_message_outcome cfg msg st) as H.
    destruct (_process_message cfg msg st) as [st1 r].
    cbn [fst snd] in H.
    assert (sessions st1 !! k' = sessions st !! k') as Hst1.
    { destruct H; try done; by apply sessions_after_ne. }
    by destruct r.
  - intros text Hok Hloop.
    destruct (loop_turn_outcome cfg msg st Hloop)
      as (w & new & _ & _ & [(o & Heq & _) | (e & Heq & _)]);
      rewrite Heq in Hok |- *; [|done].
    cbn in Hok. injection Hok as <-. cbn [fst].
    rewrite (turn_key_user msg Hsys).
    change (session_key msg) with "cli:direct".
    rewrite current_session_after. cbn.
    unfold user_entry. rewrite bool_decide_false by done.
    by rewrite <-app_assoc.
Qed.

End RunLoopFacts.

(** ** More runs with the scripted backend *)
Section MoreRuns.

Import Scripted.

Lemma loop_stops_at_first_answer_witness :
  let st := init [wants_tool; answers "yo"; answers "never asked"] in
  let new := chat_log (_process_message (cfg 5) hello st).1 in
  length new = 2%nat
  /\ Forall (loop_call (cfg 5)) new
  /\ (forall c, head new = Some c -> first_loop_call (cfg 5) hello st c)
  /\ forallb wants_tools (removelast new) = true.
Proof.
  split; [vm_compute; reflexivity|].
  apply (loop_stops_at_first_answer (cfg 5) hello
           (init [wants_tool; answers "yo"; answers "never asked"])).
  - vm_compute. reflexivity.
  - reflexivity.
Defined.

Lemma final_answer_is_reply_witness :
  (_process_message (cfg 5) hello (init [wants_tool; answers ""])).2
  = Ok (Some (mkOutbound "telegram" "1" "")).
Proof.
  apply (final_answer_is_reply (cfg 5) hello (init [wants_tool; answers ""])
           (chat_log
              (_process_message (cfg 5) hello
                 (init [wants_tool; answers ""])).1)
           (@mkChatCall collaborators
              [mkMessage "user" "hi"; mkMessage "assistant" "";
               mkMessage "tool" "ok"]
              (Some ["read_file"; "message"]) "fake" (answers ""))
           (mkResponse (Some "") [])).
  - vm_compute. reflexivity.
  - reflexivity.
  - vm_compute. reflexivity.
  - reflexivity.
  - reflexivity.
Defined.

Lemma raising_turn_commits_nothing_witness :
  let st := with_session "telegram:1" seeded [wants_tool; Raise "timeout"] in
  let turn := _process_message (cfg 5) hello st in
  turn.2 = Raise "timeout"
  /\ current_session turn.1 "telegram:1" = seeded.
Proof.
  split; [vm_compute; reflexivity|].
  apply (raising_turn_commits_nothing (cfg 5) hello
           (with_session "telegram:1" seeded [wants_tool; Raise "timeout"])
           (_process_message (cfg 5) hello
              (with_session "telegram:1" seeded
                 [wants_tool; Raise "timeout"])).1
           "timeout").
  vm_compute. reflexivity.
Defined.

Lemma loop_turn_keeps_metadata_witness :
  let st := with_session "telegram:1" (drafting "abc") [answers "yo"] in
  let st' := (_process_message (cfg 5) (inbound "system" "telegram:1" "done")
                st).1 in
  length (messages (current_session st' "telegram:1")) = 4%nat
  /\ metadata (current_session st' "telegram:1") = metadata (drafting "abc").
Proof.
  split; [vm_compute; reflexivity|].
  apply (loop_turn_keeps_metadata (cfg 5)
           (inbound "system" "telegram:1" "done")
           (with_session "telegram:1" (drafting "abc") [answers "yo"])).
  vm_compute. reflexivity.
Defined.

Lemma cancel_transition_witness :
  let st := with_session "telegram:1" (drafting "abc") [answers "unused"] in
  let st' := (_process_message (cfg 5) (inbound "telegram" "1" " Cancel ")
                st).1 in
  chat_log st' = []
  /\ memory_file st' = None
  /\ messages (current_session st' "telegram:1") = messages seeded.
Proof.
  destruct (cancel_transition (cfg 5) (inbound "telegram" "1" " Cancel ")
              (with_session "telegram:1" (drafting "abc")
                 [answers "unused"]))
    as (_ & Hlog & _ & Hmem & Hmsgs & _).
  - vm_compute. discriminate.
  - vm_compute. reflexivity.
  - vm_compute. reflexivity.
  - split_and!; [exact Hlog|exact Hmem|exact Hmsgs].
Defined.

Lemma edit_transition_witness :
  let st := with_session "telegram:1" (drafting "abc") [] in
  let st' := (_process_message (cfg 5) (inbound "telegram" "1" "  likes tea ")
                st).1 in
  metadata (current_session st' "telegram:1")
  = <["memory_draft" := PyStr "likes tea"]> (metadata (drafting "abc"))
  /\ awaiting (current_session st' "telegram:1") = true.
Proof.
  destruct (edit_transition (cfg 5) (inbound "telegram" "1" "  likes tea ")
              (with_session "telegram:1" (drafting "abc") []))
    as (_ & _ & _ & _ & Hmeta & Haw).
  - vm_compute. discriminate.
  - vm_compute. reflexivity.
  - vm_compute. reflexivity.
  - vm_compute. reflexivity.
  - vm_compute. discriminate.
  - split; [exact Hmeta|exact Haw].
Defined.

Lemma draft_creation_witness :
  let st := with_session "telegram:1" seeded [answers "   "] in
  let st' := (_process_message (cfg 5)
                (inbound "telegram" "1" "save to memory") st).1 in
  metadata (current_session st' "telegram:1")
  = <["memory_draft" := PyStr draft_placeholder]>
      (<["awaiting_memory_confirm" := PyBool true]> ∅)
  /\ length (chat_log st') = 1%nat.
Proof.
  destruct (draft_creation (cfg 5) (inbound "telegram" "1" "save to memory")
              (with_session "telegram:1" seeded [answers "   "])
              [] (mkResponse (Some "   ") []))
    as (_ & Hlog & _ & _ & Hmeta & _).
  - vm_compute. discriminate.
  - vm_compute. reflexivity.
  - vm_compute. reflexivity.
  - vm_compute. discriminate.
  - reflexivity.
  - split; [exact Hmeta|]. rewrite Hlog. reflexivity.
Defined.

Lemma draft_then_cancel_witness :
  let st := with_session "telegram:1" seeded [answers fake_draft] in
  let st1 := (_process_message (cfg 5)
                (inbound "telegram" "1" "save to memory") st).1 in
  let st2 := (_process_message (cfg 5) (inbound "telegram" "1" "Отмена")
                st1).1 in
  current_session st2 "telegram:1" = seeded /\ memory_file st2 = None.
Proof.
  destruct (draft_then_cancel (cfg 5)
              (inbound "telegram" "1" "save to memory")
              (inbound "telegram" "1" "Отмена")
              (with_session "telegram:1" seeded [answers fake_draft])
              [] (mkResponse (Some fake_draft) []))
    as (Hsession & Hmem & _).
  - vm_compute. discriminate.
  - vm_compute. reflexivity.
  - vm_compute. reflexivity.
  - vm_compute. reflexivity.
  - vm_compute. discriminate.
  - reflexivity.
  - vm_compute. discriminate.
  - reflexivity.
  - vm_compute. reflexivity.
  - split; [exact Hsession|exact Hmem].
Defined.

Lemma edit_then_confirm_witness :
  let st := with_session "telegram:1" (drafting "abc") [] in
  let st1 := (_process_message (cfg 5) (inbound "telegram" "1" " likes tea ")
                st).1 in
  let st2 := (_process_message (cfg 5) (inbound "telegram" "1" "save") st1).1 in
  memory_file st2
  = Some (MemoryStore.template
          +:+ (PyStr.nl +:+ PyStr.nl +:+ "---" +:+ PyStr.nl +:+ PyStr.nl)
          +:+ "likes tea" +:+ PyStr.nl)
  /\ chat_log st2 = [].
Proof.
  destruct (edit_then_confirm (cfg 5) (inbound "telegram" "1" " likes tea ")
              (inbound "telegram" "1" "save")
              (with_session "telegram:1" (drafting "abc") []))
    as (_ & Hmem & Hlog & _).
  - vm_compute. discriminate.
  - vm_compute. reflexivity.
  - vm_compute. reflexivity.
  - vm_compute. reflexivity.
  - vm_compute. discriminate.
  - vm_compute. discriminate.
  - reflexivity.
  - vm_compute. reflexivity.
  - split; [exact Hmem|exact Hlog].
Defined.

Lemma draft_then_confirm_witness :
  let st := with_session "telegram:1" seeded [answers fake_draft] in
  let st1 := (_process_message (cfg 5)
                (inbound "telegram" "1" "Сохранить в памяти") st).1 in
  let st2 := (_process_message (cfg 5) (inbound "telegram" "1" "сохранить")
                st1).1 in
  memory_file st2
  = Some (MemoryStore.template
          +:+ (PyStr.nl +:+ PyStr.nl +:+ "---" +:+ PyStr.nl +:+ PyStr.nl)
          +:+ fake_draft +:+ PyStr.nl)
  /\ current_session st2 "telegram:1" = seeded.
Proof.
  destruct (draft_then_confirm (cfg 5)
              (inbound "telegram" "1" "Сохранить в памяти")
              (inbound "telegram" "1" "сохранить")
              (with_session "telegram:1" seeded [answers fake_draft])
              [] (mkResponse (Some fake_draft) []))
    as (Hmem & Hsession & _).
  - vm_compute. discriminate.
  - vm_compute. reflexivity.
  - vm_compute. reflexivity.
  - vm_compute. reflexivity.
  - vm_compute. discriminate.
  - reflexivity.
  - vm_compute. discriminate.
  - reflexivity.
  - vm_compute. reflexivity.
  - split; [exact Hmem|exact Hsession].
Defined.

Lemma save_request_and_history_witness :
  let blanks :=
    {| messages := [mkMessage "user" "   "; mkMessage "assistant" ""];
       metadata := ∅ |} in
  let st := with_session "telegram:1" blanks [answers "unused"] in
  chat_log (_process_message (cfg 5) (inbound "telegram" "1" "save to memory")
              st).1 = [].
Proof.
  destruct (save_request_and_history (cfg 5)
              (inbound "telegram" "1" "save to memory")
              (with_session "telegram:1"
                 {| messages :=
                      [mkMessage "user" "   "; mkMessage "assistant" ""];
                    metadata := ∅ |}
                 [answers "unused"]))
    as (Hblank & _).
  - vm_compute. discriminate.
  - vm_compute. reflexivity.
  - vm_compute. reflexivity.
  - destruct Hblank as [_ Hlog]; [|exact Hlog].
    repeat constructor.
Defined.

Lemma triggers_exclusive_witness :
  is_confirm_save (inbound "telegram" "1" " CANCEL ") = false
  /\ is_save_memory (inbound "telegram" "1" " CANCEL ") = false.
Proof.
  destruct (triggers_exclusive (inbound "telegram" "1" " CANCEL "))
    as (Hcancel & _).
  apply Hcancel. vm_compute. reflexivity.
Defined.

Lemma memory_written_only_on_confirm_witness :
  let st := with_session "telegram:1" (drafting "abc") [] in
  awaiting (current_session st "telegram:1") = true
  /\ memory_file (_process_message (cfg 5) (inbound "telegram" "1" "save")
                    st).1
     = MemoryStore.append_long_term None "abc".
Proof.
  destruct (memory_written_only_on_confirm (cfg 5)
              (inbound "telegram" "1" "save")
              (with_session "telegram:1" (drafting "abc") []))
    as (_ & Haw & _ & _ & Hmem).
  - left. vm_compute. reflexivity.
  - vm_compute. discriminate.
  - split; [exact Haw|exact Hmem].
Defined.

Lemma failed_system_turn_apology_witness :
  let rs := {| agent := init [Raise "timeout"]; published := [] |} in
  let msg := inbound "system" "telegram:42" "task done" in
  last (published (run_iteration (cfg 5) msg rs))
  = Some (mkOutbound "system" "telegram:42"
            "Sorry, I encountered an error: timeout")
  /\ reply_address msg <> ("system", "telegram:42").
Proof.
  apply (failed_system_turn_apology (cfg 5)
           (inbound "system" "telegram:42" "task done")
           {| agent := init [Raise "timeout"]; published := [] |} "timeout").
  - reflexivity.
  - vm_compute. reflexivity.
Defined.

Lemma process_direct_uses_cli_direct_witness :
  let st := with_session "telegram:1" seeded [answers "yo"] in
  let st' := (process_direct (cfg 5) "hi" "telegram:1" st).1 in
  sessions st' !! "telegram:1" = Some seeded
  /\ messages (current_session st' "cli:direct")
     = [mkMessage "user" "hi"; mkMessage "assistant" "yo"].
Proof.
  destruct (process_direct_uses_cli_direct (cfg 5) "hi" "telegram:1"
              (with_session "telegram:1" seeded [answers "yo"]))
    as (Hother & Hgrow).
  split.
  - etransitivity; [apply Hother; discriminate|]. vm_compute. reflexivity.
  - apply (Hgrow "yo"); vm_compute; reflexivity.
Defined.

(** The run loop on two messages around a time-out, the second turn
    failing. *)
Example run_ex :
  published
    (run (cfg 5)
       [Delivered hello; TimedOut;
        Delivered (inbound "system" "telegram:1" "task done")]
       {| agent := init [answers "yo"; Raise "timeout"]; published := [] |})
  = [mkOutbound "telegram" "1" "yo";
     mkOutbound "system" "telegram:1"
       "Sorry, I encountered an error: timeout"].
Proof. vm_compute. reflexivity. Qed.

End MoreRuns.
